(** * Blink MCP orchestrator: session store, step dispatcher, menu matcher

    A shallow embedding of [orchestration/session_context.py],
    [orchestration/memory_store.py], [orchestration/menu_validator.py],
    [orchestration/n8n_gateway.py] and [orchestration/agent_core.py],
    followed by the properties of the specification that these modules
    decide.

    Conventions of the embedding.
    - A Python [str] is a [string]; [str.strip] and [str.lower] are given
      on the ASCII range.
    - A [datetime] is a number of microseconds ([Z]); so is a [timedelta].
    - A [dict] is a [gmap]; the values that travel through the scratchpad
      and the webhook replies are [None], booleans, integers, strings and
      lists of menu entries ([pyval]).
    - A Python [float] that is finite is a rational: the similarity ratio
      and the fuzzy threshold are in [Q], compared exactly.
    - [difflib.SequenceMatcher(...).ratio()] and the builtin [str()] of a
      value are library code: the development is parametric in them
      ([ratio], [py_str]); a model of the former is given at the end for
      the worked scenarios.
    - A method that mutates the session in place is a computation in a
      state-and-exception monad over [SessionContext]; the state survives
      a raise, as an object mutated in place does. *)

From Stdlib Require Import ZArith QArith Lia Lqa Ascii String.
From stdpp Require Import base option list strings pretty gmap.

Local Open Scope string_scope.
Local Open Scope list_scope.
Local Open Scope Z_scope.

(** ** Python strings *)

Module PyStr.

(** [str.isspace] on one ASCII character: TAB, LF, VT, FF, CR, the four
    separators FS GS RS US, and the space. *)
Definition is_space (c : ascii) : bool :=
  let n := Ascii.N_of_ascii c in
  ((9 <=? n) && (n <=? 13) || (28 <=? n) && (n <=? 32))%N.

Definition lower_char (c : ascii) : ascii :=
  let n := Ascii.N_of_ascii c in
  if ((65 <=? n) && (n <=? 90))%N then Ascii.ascii_of_N (n + 32) else c.

Fixpoint lstrip (s : string) : string :=
  match s with
  | String c s' => if is_space c then lstrip s' else s
  | EmptyString => EmptyString
  end.

(** [rstrip] walks to the end and drops the characters behind which
    only white space follows. *)
Fixpoint rstrip (s : string) : string :=
  match s with
  | String c s' =>
      match rstrip s' with
      | EmptyString => if is_space c then EmptyString else String c EmptyString
      | r => String c r
      end
  | EmptyString => EmptyString
  end.

Definition strip (s : string) : string := rstrip (lstrip s).

Fixpoint lower (s : string) : string :=
  match s with
  | String c s' => String (lower_char c) (lower s')
  | EmptyString => EmptyString
  end.

(** Truth value of a [str]: non-empty. *)
Definition truthy (s : string) : bool :=
  match s with EmptyString => false | _ => true end.

Fixpoint join (sep : string) (l : list string) : string :=
  match l with
  | [] => ""
  | [x] => x
  | x :: l' => x +:+ sep +:+ join sep l'
  end.

(** The characters of a string, each as a string of length one: what
    iterating over a [str] yields. *)
Fixpoint chars (s : string) : list string :=
  match s with
  | String c s' => String c EmptyString :: chars s'
  | EmptyString => []
  end.

End PyStr.

(** ** Values *)

(** A menu entry as the webhook sends it: a bare name, or a [dict] of
    which the code reads the keys ["name"] and ["price"] ([None] stands
    for a key that is missing or null: [dict.get] gives [None] for both). *)
Inductive MenuItem :=
| ItemStr (s : string)
| ItemDict (name : option string) (price : option string).

Inductive pyval :=
| VNone
| VBool (b : bool)
| VInt (z : Z)
| VStr (s : string)
| VItems (l : list MenuItem).

Abbreviation pydict := (gmap string pyval).

(** Truth value of a Python object, as [if x], [not x], [x or y] and
    [bool(x)] test it. *)
Definition truthy (v : pyval) : bool :=
  match v with
  | VNone => false
  | VBool b => b
  | VInt z => negb (z =? 0)
  | VStr s => PyStr.truthy s
  | VItems l => match l with [] => false | _ => true end
  end.

(** [x or y]. *)
Definition py_or (x y : pyval) : pyval := if truthy x then x else y.

(** [d.get(k)]: [None] when the key is missing. *)
Definition dict_get (d : pydict) (k : string) : pyval :=
  default VNone (d !! k).

(** [d.get(k, dflt)]. *)
Definition dict_get_default (d : pydict) (k : string) (dflt : pyval) : pyval :=
  default dflt (d !! k).

(** An [Optional[str]] field seen as an object. *)
Definition of_opt_str (o : option string) : pyval :=
  match o with Some s => VStr s | None => VNone end.

(** ** Exceptions and results *)

Inductive pyexn :=
| TransportError      (* httpx: the request could not be completed *)
| HTTPStatusError     (* httpx: [raise_for_status] on an error status *)
| ClassifierError     (* the classifier request raised *)
| TypeError
| KeyError.

Inductive Res (A : Type) :=
| Ok (a : A)
| Raise (e : pyexn).
Arguments Ok {A} a.
Arguments Raise {A} e.

Definition res_bind {A B} (r : Res A) (k : A -> Res B) : Res B :=
  match r with Ok a => k a | Raise e => Raise e end.

Definition is_ok {A} (r : Res A) : bool :=
  match r with Ok _ => true | Raise _ => false end.

(** Iterating over an object ([for m in x]): a list yields its elements,
    a [str] its characters; the other values are not iterable. *)
Definition py_iter (v : pyval) : Res (list MenuItem) :=
  match v with
  | VItems l => Ok l
  | VStr s => Ok (ItemStr <$> PyStr.chars s)
  | _ => Raise TypeError
  end.

(** [x[:n]] followed by iteration: the first [n] elements. *)
Definition py_slice_to (n : nat) (v : pyval) : Res (list MenuItem) :=
  res_bind (py_iter v) (fun l => Ok (take n l)).

(** ** session_context.py *)

Inductive Role := user | assistant | system.

Abbreviation datetime := Z (only parsing).
Abbreviation timedelta := Z (only parsing).

Record Message := {
  role : Role;
  text : string;
  timestamp : datetime
}.

Record SessionMeta := {
  channel : string;
  user_id : string;
  session_id : string;
  created_at : datetime;
  last_seen_at : datetime
}.

Record SessionState := {
  flow : option string;
  step : option string;
  scratchpad : pydict;
  session_done : bool
}.

Record ShortTermMemory := {
  history : list Message;
  turn_count : Z;
  last_user_message_at : option datetime
}.

Record SessionContext := {
  session : SessionMeta;
  state : SessionState;
  short_term : ShortTermMemory
}.

Module SessionContext.

(** [SessionContext.new]: empty state, empty memory. *)
Definition new (channel user_id session_id : string) (created_at : datetime)
  : SessionContext :=
  {| session := {| channel := channel; user_id := user_id;
                   session_id := session_id; created_at := created_at;
                   last_seen_at := created_at |};
     state := {| flow := None; step := None; scratchpad := ∅;
                 session_done := false |};
     short_term := {| history := []; turn_count := 0;
                      last_user_message_at := None |} |}.

(** [self.session.last_seen_at = now] *)
Definition touch (now : datetime) (self : SessionContext) : SessionContext :=
  {| session := {| channel := channel (session self);
                   user_id := user_id (session self);
                   session_id := session_id (session self);
                   created_at := created_at (session self);
                   last_seen_at := now |};
     state := state self;
     short_term := short_term self |}.

Definition append_user_message (text : string) (timestamp : datetime)
    (self : SessionContext) : SessionContext :=
  let msg := {| role := user; text := text; timestamp := timestamp |} in
  let self :=
    {| session := session self;
       state := state self;
       short_term :=
         {| history := history (short_term self) ++ [msg];
            turn_count := turn_count (short_term self) + 1;
            last_user_message_at := Some timestamp |} |} in
  touch timestamp self.

Definition append_assistant_message (text : string) (timestamp : datetime)
    (self : SessionContext) : SessionContext :=
  let msg := {| role := assistant; text := text; timestamp := timestamp |} in
  let self :=
    {| session := session self;
       state := state self;
       short_term :=
         {| history := history (short_term self) ++ [msg];
            turn_count := turn_count (short_term self);
            last_user_message_at := last_user_message_at (short_term self) |} |} in
  touch timestamp self.

(** Assignments to the fields of [ctx.state]. *)
Definition with_state (f : SessionState -> SessionState)
    (self : SessionContext) : SessionContext :=
  {| session := session self; state := f (state self);
     short_term := short_term self |}.

Definition set_flow (v : option string) : SessionContext -> SessionContext :=
  with_state (fun st => {| flow := v; step := step st;
                           scratchpad := scratchpad st;
                           session_done := session_done st |}).

Definition set_step (v : option string) : SessionContext -> SessionContext :=
  with_state (fun st => {| flow := flow st; step := v;
                           scratchpad := scratchpad st;
                           session_done := session_done st |}).

(** [ctx.state.scratchpad[k] = v] *)
Definition set_scratch (k : string) (v : pyval) : SessionContext -> SessionContext :=
  with_state (fun st => {| flow := flow st; step := step st;
                           scratchpad := <[k := v]> (scratchpad st);
                           session_done := session_done st |}).

Definition set_session_done (b : bool) : SessionContext -> SessionContext :=
  with_state (fun st => {| flow := flow st; step := step st;
                           scratchpad := scratchpad st;
                           session_done := b |}).

End SessionContext.

(** ** memory_store.py *)

Abbreviation SessionKey := (string * string * string)%type.

Record MemoryStore := {
  _store : gmap SessionKey SessionContext;
  ttl : timedelta
}.

Module MemoryStore.

Definition minute : timedelta := 60000000.

(** [MemoryStore(ttl_minutes)]; the default is 60. *)
Definition init (ttl_minutes : Z) : MemoryStore :=
  {| _store := ∅; ttl := ttl_minutes * minute |}.

Definition _key (channel user_id session_id : string) : SessionKey :=
  (channel, user_id, session_id).

Definition with_store (m : gmap SessionKey SessionContext)
    (self : MemoryStore) : MemoryStore :=
  {| _store := m; ttl := ttl self |}.

(** [load]: [now] is the clock as [load] reads it. The record found
    expired is popped from the mapping. *)
Definition load (self : MemoryStore) (channel user_id session_id : string)
    (now : datetime) : option SessionContext * MemoryStore :=
  let key := _key channel user_id session_id in
  match _store self !! key with
  | None => (None, self)
  | Some ctx =>
      if now - last_seen_at (session ctx) >? ttl self
      then (None, with_store (delete key (_store self)) self)
      else (Some ctx, self)
  end.

Definition save (self : MemoryStore) (ctx : SessionContext) : MemoryStore :=
  let key := _key (channel (session ctx)) (user_id (session ctx))
                  (session_id (session ctx)) in
  with_store (<[key := ctx]> (_store self)) self.

Definition purge_expired (self : MemoryStore) (now : datetime) : MemoryStore :=
  let to_delete :=
    omap (fun '(key, ctx) =>
            if now - last_seen_at (session ctx) >? ttl self
            then Some key else None)
         (map_to_list (_store self)) in
  with_store (foldr delete (_store self) to_delete) self.

End MemoryStore.

(** The key under which [save] files a context, and [load] by key. *)
Definition key_of (ctx : SessionContext) : SessionKey :=
  MemoryStore._key (channel (session ctx)) (user_id (session ctx))
                   (session_id (session ctx)).

Definition load_key (store : MemoryStore) (k : SessionKey) (now : datetime)
  : option SessionContext * MemoryStore :=
  MemoryStore.load store k.1.1 k.1.2 k.2 now.

(** ** Computations on a session *)

(** A method that receives [ctx], may assign to its fields and may raise.
    The context comes back in both cases: an object mutated in place stays
    mutated when the call is left by an exception. *)
Definition M (A : Type) : Type := SessionContext -> Res A * SessionContext.

#[global] Instance Res_ret : MRet Res := @Ok.
#[global] Instance Res_bind : MBind Res := fun A B k r => res_bind r k.

#[global] Instance M_ret : MRet M := fun A a ctx => (Ok a, ctx).
#[global] Instance M_bind : MBind M := fun A B k m ctx =>
  match m ctx with
  | (Ok a, ctx') => k a ctx'
  | (Raise e, ctx') => (Raise e, ctx')
  end.

Module M.
(** Reading [ctx]. *)
Definition get : M SessionContext := fun ctx => (Ok ctx, ctx).
Definition gets {A} (f : SessionContext -> A) : M A := fun ctx => (Ok (f ctx), ctx).
(** An assignment to a field of [ctx]. *)
Definition modify (f : SessionContext -> SessionContext) : M unit :=
  fun ctx => (Ok tt, f ctx).
(** A computation that does not touch [ctx]. *)
Definition lift {A} (r : Res A) : M A := fun ctx => (r, ctx).
(** [ctx.state.scratchpad.get(k)] *)
Definition scratch_get (k : string) : M pyval :=
  gets (fun ctx => dict_get (scratchpad (state ctx)) k).
End M.

(** [for x in l: acc = body(acc, x)], left by the first raise. *)
Fixpoint res_foldl {A B} (body : A -> B -> Res A) (l : list B) (acc : A) : Res A :=
  match l with
  | [] => Ok acc
  | x :: l' => acc' ← body acc x; res_foldl body l' acc'
  end.

(** ** Comparisons of floats *)

Definition Qgtb (x y : Q) : bool := negb (Qle_bool x y).
Definition Qgeb (x y : Q) : bool := Qle_bool y x.

(** ** menu_validator.py *)

Record MenuValidator := { fuzzy_threshold : Q }.

Module MenuValidator.

(** [MenuValidator()]: the default threshold, the float [0.7], whose
    exact value is [0x1.6666666666666p-1]. *)
Definition float_0_7 : Q := 3152519739159347 # 4503599627370496.
Definition init_default : MenuValidator := {| fuzzy_threshold := float_0_7 |}.

Section Ratio.
(** [difflib.SequenceMatcher(None, a, b).ratio()] *)
Variable ratio : string -> string -> Q.

(** The name of a menu entry, stripped:
    [(m.get("name") or "").strip()] for a [dict], [str(m).strip()]
    otherwise. *)
Definition item_name (m : MenuItem) : string :=
  match m with
  | ItemDict name _ => PyStr.strip (default "" name)
  | ItemStr s => PyStr.strip s
  end.

(** Body of the loop over [menu_items] that fills [name_to_item] and
    [names_lower]. *)
Definition add_name (acc : gmap string MenuItem * list string) (m : MenuItem)
  : gmap string MenuItem * list string :=
  let '(name_to_item, names_lower) := acc in
  let name := item_name m in
  if negb (PyStr.truthy name) then acc
  else
    let lower := PyStr.lower name in
    (<[lower := m]> name_to_item, names_lower ++ [lower]).

Definition build_lookup (menu_items : list MenuItem)
  : gmap string MenuItem * list string :=
  fold_left add_name menu_items (∅, []).

(** The key under which the loop files an entry: its stripped,
    lower-cased name, unless the stripped name is empty. *)
Definition entry_key (m : MenuItem) : option string :=
  let name := item_name m in
  if negb (PyStr.truthy name) then None else Some (PyStr.lower name).

(** An entry is the last of the menu filed under [k]. *)
Definition last_under (k : string) (menu : list MenuItem) (e : MenuItem) : Prop :=
  exists pre post,
    menu = pre ++ e :: post
    /\ entry_key e = Some k
    /\ Forall (fun x => entry_key x <> Some k) post.

(** Body of the loop over [names_lower]: the pair is
    [(best_match, best_ratio)]. *)
Definition fuzzy_step (cand_lower : string) (best : option string * Q)
    (name_lower : string) : option string * Q :=
  let r := ratio cand_lower name_lower in
  if Qgtb r (snd best) then (Some name_lower, r) else best.

Definition fuzzy_best (cand_lower : string) (names_lower : list string)
  : option string * Q :=
  fold_left (fuzzy_step cand_lower) names_lower (None, 0%Q).

(** What the scan over the candidate names has found: the first name
    that reaches the largest ratio, if that ratio is positive. *)
Definition first_maximum (cand_lower : string) (names_lower : list string)
    (best : option string * Q) : Prop :=
  match best with
  | (Some n, r) =>
      exists pre post,
        names_lower = pre ++ n :: post
        /\ r = ratio cand_lower n
        /\ (0 < r)%Q
        /\ Forall (fun x => (ratio cand_lower x < r)%Q) pre
        /\ Forall (fun x => (ratio cand_lower x <= r)%Q) post
  | (None, r) =>
      r = 0%Q /\ Forall (fun x => (ratio cand_lower x <= 0)%Q) names_lower
  end.

(** Body of the loop over [ordered_items]: the pair is
    [(valid_items, unknown_items)]. [name_to_item[best_match]] raises
    [KeyError] on a missing key. *)
Definition validate_line (self : MenuValidator)
    (name_to_item : gmap string MenuItem) (names_lower : list string)
    (acc : list MenuItem * list string) (raw : string)
  : Res (list MenuItem * list string) :=
  let '(valid_items, unknown_items) := acc in
  let candidate := PyStr.strip raw in
  if negb (PyStr.truthy candidate) then Ok acc
  else
    let cand_lower := PyStr.lower candidate in
    match name_to_item !! cand_lower with
    | Some m => Ok (valid_items ++ [m], unknown_items)
    | None =>
        let '(best_match, best_ratio) := fuzzy_best cand_lower names_lower in
        if truthy (of_opt_str best_match)
           && Qgeb best_ratio (fuzzy_threshold self)
        then
          match name_to_item !! default "" best_match with
          | Some m => Ok (valid_items ++ [m], unknown_items)
          | None => Raise KeyError
          end
        else Ok (valid_items, unknown_items ++ [candidate])
    end.

(** [validate_items(ordered_items, ctx)]: the method reads
    [ctx.state.scratchpad] and assigns nothing. *)
Definition validate_items (self : MenuValidator) (ordered_items : list string)
  : M (list MenuItem * list string) :=
  cached ← M.scratch_get "menu_items";
  let menu_items := py_or cached (VItems []) in
  if negb (truthy menu_items) then mret ([], ordered_items)
  else
    M.lift (
      ms ← py_iter menu_items;
      let '(name_to_item, names_lower) := build_lookup ms in
      res_foldl (validate_line self name_to_item names_lower)
                ordered_items ([], [])).

End Ratio.

End MenuValidator.

(** ** models.py *)

Record OrchestratorRequest := {
  req_channel : string;
  req_user_id : string;
  req_session_id : string;
  req_text : string
}.

Record MemorySnapshot := {
  snap_flow : option string;
  snap_step : option string;
  snap_scratchpad : pydict;
  snap_last_user_message_at : option datetime;
  snap_turn_count : Z
}.

Module MemorySnapshot.
Definition from_ctx (ctx : SessionContext) : MemorySnapshot :=
  {| snap_flow := flow (state ctx);
     snap_step := step (state ctx);
     snap_scratchpad := scratchpad (state ctx);
     snap_last_user_message_at := last_user_message_at (short_term ctx);
     snap_turn_count := turn_count (short_term ctx) |}.
End MemorySnapshot.

Record OrchestratorResponse := {
  reply_text : string;
  resp_session_done : bool;
  memory_snapshot : MemorySnapshot
}.

Record IntentData := {
  intent : string;
  phone : option string;
  address : option string;
  items : list string;
  notes : option string;
  satisfaction : option Q
}.

(** ** The world outside one turn *)

(** What one HTTP exchange of [httpx] comes to. *)
Inductive HttpExchange :=
| HttpRaises (e : pyexn)   (* [client.post] or [resp.raise_for_status()] raised *)
| HttpJson (d : pydict)    (* a success status, [resp.json()] is [d] *)
| HttpText (raw : string). (* a success status, the body is not JSON *)

Record World := {
  (** [datetime.now(timezone.utc)] as [handle] reads it, then as
      [MemoryStore.load] reads it *)
  clock_handle : datetime;
  clock_load : datetime;
  (** the classifier request of [LLMBasedIntentRouter.route] on the user
      text and the recent messages, decoded *)
  classify : string -> list string -> Res IntentData;
  (** the exchange with an n8n webhook, by URL and payload *)
  n8n_http : string -> pydict -> HttpExchange;
  (** the posts to the POS bridge and to the analytics webhook *)
  pos_http : Res unit;
  analytics_http : Res unit
}.

(** ** n8n_gateway.py *)

Record N8NGateway := {
  menu_url : option string;
  phone_url : option string;
  order_url : option string
}.

Module N8NGateway.

Definition _post (w : World) (url : option string) (payload : pydict) : Res pydict :=
  if negb (truthy (of_opt_str url)) then Ok {[ "error" := VStr "url_not_configured" ]}
  else
    match n8n_http w (default "" url) payload with
    | HttpRaises e => Raise e
    | HttpJson d => Ok d
    | HttpText raw => Ok {[ "raw" := VStr raw ]}
    end.

Definition get_menu (self : N8NGateway) (w : World) (payload : pydict) : Res pydict :=
  _post w (menu_url self) payload.

Definition verify_phone (self : N8NGateway) (w : World) (payload : pydict) : Res pydict :=
  _post w (phone_url self) payload.

Definition place_order (self : N8NGateway) (w : World) (payload : pydict) : Res pydict :=
  _post w (order_url self) payload.

End N8NGateway.

(** ** pos_gateway.py, analytics_gateway.py *)

Record POSGateway := { pos_url : option string }.
Record AnalyticsGateway := { analytics_url : option string }.

Module POSGateway.
(** The post sits in [try: ... except Exception: pass]. *)
Definition send_to_pos (self : POSGateway) (w : World) : Res unit :=
  if negb (truthy (of_opt_str (pos_url self))) then Ok tt
  else match pos_http w with Ok _ => Ok tt | Raise _ => Ok tt end.
End POSGateway.

Module AnalyticsGateway.
Definition send_analytics (self : AnalyticsGateway) (w : World) : Res unit :=
  if negb (truthy (of_opt_str (analytics_url self))) then Ok tt
  else match analytics_http w with Ok _ => Ok tt | Raise _ => Ok tt end.
End AnalyticsGateway.

(** ** llm_router.py *)

Module LLMBasedIntentRouter.
(** [ctx.short_term.history[-5:]] *)
Definition last5 {A} (l : list A) : list A := drop (length l - 5)%nat l.

(** [route(user_text, ctx)] reads the history and assigns nothing. *)
Definition route (w : World) (user_text : string) : M IntentData :=
  ctx ← M.get;
  let recent_messages := text <$> last5 (history (short_term ctx)) in
  M.lift (classify w user_text recent_messages).
End LLMBasedIntentRouter.

(** ** agent_core.py *)

Record AgentCore := {
  menu_validator : MenuValidator;
  n8n_gateway : N8NGateway;
  pos_gateway : POSGateway;
  analytics_gateway : AnalyticsGateway
}.

Module AgentCore.

Definition nl : string := String (Ascii.ascii_of_nat 10) EmptyString.

(** Body of the two loops that list menu entries: the name (or
    ["Unnamed item"]) and the price when there is one. *)
Definition menu_line (item : MenuItem) : string :=
  let '(name, price) :=
    match item with
    | ItemDict name price =>
        (if truthy (of_opt_str name) then default "" name else "Unnamed item",
         price)
    | ItemStr s => (s, None)
    end in
  if truthy (of_opt_str price)
  then "- " +:+ name +:+ " — " +:+ default "" price
  else "- " +:+ name.

Definition reply_menu_unavailable : string :=
  "Our menu system is temporarily unavailable, but I can still take your order. "
  +:+ "What would you like to eat?".

Definition reply_phone_missing : string :=
  "I didn't catch your phone number. Can you say it again?".

Definition reply_address_missing : string :=
  "I didn’t catch your address. Can you please repeat it?".

Definition reply_fallback : string :=
  "I can help you with food orders, menus, and delivery details. "
  +:+ "What would you like to eat today?".

Definition reply_unknown : string :=
  "I'm not sure I understood that. I can help you with food ordering. "
  +:+ "For example, you can say: 'Show me the menu' or 'I want a cheeseburger.'".

Section Handlers.
(** [difflib]'s ratio and the builtin [str()] as f-strings apply it. *)
Variable ratio : string -> string -> Q.
Variable py_str : pyval -> string.

Variable self : AgentCore.
Variable w : World.

Definition _handle_get_menu (intent_data : IntentData) : M string :=
  ctx ← M.get;
  let payload : pydict :=
    {[ "session_id" := VStr (session_id (session ctx));
       "user_id" := VStr (user_id (session ctx));
       "channel" := VStr (channel (session ctx));
       "intent" := VStr "get_menu";
       "notes" := of_opt_str (notes intent_data) ]} in
  data ← M.lift (N8NGateway.get_menu (n8n_gateway self) w payload);
  let menu_items :=
    py_or (py_or (dict_get data "menu") (dict_get data "items")) (VItems []) in
  if negb (truthy menu_items) then mret reply_menu_unavailable
  else
    M.modify (SessionContext.set_scratch "menu_items" menu_items);;
    shown ← M.lift (py_slice_to 10 menu_items);
    let lines :=
      ["Here are some options on the menu:"]
      ++ (menu_line <$> shown)
      ++ ["What would you like to order?"] in
    mret (PyStr.join nl lines).

Definition _handle_phone (intent_data : IntentData) : M string :=
  cached ← M.scratch_get "phone";
  let phone := py_or (of_opt_str (phone intent_data)) cached in
  if negb (truthy phone) then mret reply_phone_missing
  else
    ctx ← M.get;
    let payload : pydict :=
      {[ "session_id" := VStr (session_id (session ctx));
         "user_id" := VStr (user_id (session ctx));
         "intent" := VStr "provide_phone";
         "phone" := phone ]} in
    data ← M.lift (N8NGateway.verify_phone (n8n_gateway self) w payload);
    let verified := truthy (dict_get_default data "verified" (VBool false)) in
    let normalized := dict_get_default data "normalized_phone" phone in
    M.modify (SessionContext.set_scratch "phone" normalized);;
    if verified then
      mret ("Got it. I’ve verified your number as " +:+ py_str normalized +:+ ". "
            +:+ "What is your delivery address?")
    else
      mret ("I heard your phone as " +:+ py_str normalized
            +:+ ", but I couldn’t verify it. "
            +:+ "Do you still want to use this number, or would you like to provide another one?").

Definition _handle_address (intent_data : IntentData) : M string :=
  cached ← M.scratch_get "address";
  let address := py_or (of_opt_str (address intent_data)) cached in
  if negb (truthy address) then mret reply_address_missing
  else
    M.modify (SessionContext.set_scratch "address" address);;
    mret ("Thanks, I have your address as: " +:+ py_str address +:+ ". "
          +:+ "Would you like me to place the order now?").

Definition _handle_order (intent_data : IntentData) : M string :=
  let ordered_items := items intent_data in
  let notes := notes intent_data in
  phone ← M.scratch_get "phone";
  address ← M.scratch_get "address";
  '(valid_menu_items, unknown_items) ←
    MenuValidator.validate_items ratio (menu_validator self) ordered_items;
  match unknown_items with
  | _ :: _ =>
      cached ← M.scratch_get "menu_items";
      let menu_items := py_or cached (VItems []) in
      suggestions ←
        (if truthy menu_items then
           shown ← M.lift (py_slice_to 8 menu_items);
           mret (["";
                  "Here are some items you can order instead:"]
                 ++ (menu_line <$> shown))
         else mret []);
      let lines :=
        ["I couldn’t find these items in our menu:"]
        ++ ((fun itm => "- " +:+ itm) <$> unknown_items)
        ++ suggestions
        ++ [""; "Can you please choose from the menu items?"] in
      mret (PyStr.join nl lines)
  | [] =>
      ctx ← M.get;
      let payload_items := valid_menu_items in
      let order_payload : pydict :=
        {[ "session_id" := VStr (session_id (session ctx));
           "user_id" := VStr (user_id (session ctx));
           "intent" := VStr "place_order";
           "items" := VItems payload_items;
           "notes" := of_opt_str notes;
           "phone" := phone;
           "address" := address ]} in
      data ← M.lift (N8NGateway.place_order (n8n_gateway self) w order_payload);
      let order_id := dict_get data "order_id" in
      let eta := dict_get data "eta" in
      M.modify (SessionContext.set_scratch "last_order_id" order_id);;
      M.modify (SessionContext.set_scratch "last_order_items" (VItems payload_items));;
      M.lift (POSGateway.send_to_pos (pos_gateway self) w);;
      let base := "I’ve placed your order" in
      let base :=
        if truthy order_id
        then base +:+ " with reference ID " +:+ py_str order_id else base in
      let base :=
        if truthy eta
        then base +:+ ". Estimated delivery time is " +:+ py_str eta +:+ "."
        else base +:+ "." in
      M.modify (SessionContext.set_session_done true);;
      mret (base +:+ " Thank you for ordering! Enjoy your meal.")
  end.

Definition _route_intent (req : OrchestratorRequest) (intent_data : IntentData)
    (now : datetime) : M (string * bool) :=
  let intent := intent intent_data in
  ctx ← M.get;
  (if flow (state ctx) is None
   then M.modify (SessionContext.set_flow (Some "food_order"))
   else mret tt);;
  reply_text ←
    (if decide (intent = "get_menu") then
       M.modify (SessionContext.set_step (Some "menu"));;
       _handle_get_menu intent_data
     else if decide (intent = "provide_phone") then
       M.modify (SessionContext.set_step (Some "phone"));;
       _handle_phone intent_data
     else if decide (intent = "provide_address") then
       M.modify (SessionContext.set_step (Some "address"));;
       _handle_address intent_data
     else if decide (intent = "place_order") then
       M.modify (SessionContext.set_step (Some "order"));;
       _handle_order intent_data
     else if decide (intent = "chitchat" \/ intent = "unknown") then
       M.modify (SessionContext.set_step (Some "fallback"));;
       mret reply_fallback
     else
       M.modify (SessionContext.set_step (Some "unknown"));;
       mret reply_unknown);
  session_done ← M.gets (fun ctx => session_done (state ctx));
  mret (reply_text, session_done).

(** The body of [handle] once the session is resolved: steps 2 to 6
    and the response of step 8, on the context [ctx]. *)
Definition handle_ctx (req : OrchestratorRequest) (now : datetime)
  : M OrchestratorResponse :=
  M.modify (SessionContext.append_user_message (req_text req) now);;
  intent_data ← LLMBasedIntentRouter.route w (req_text req);
  '(reply_text, session_done) ← _route_intent req intent_data now;
  M.modify (SessionContext.set_session_done session_done);;
  memory_snapshot ← M.gets MemorySnapshot.from_ctx;
  M.lift (AnalyticsGateway.send_analytics (analytics_gateway self) w);;
  mret {| reply_text := reply_text;
          resp_session_done := session_done;
          memory_snapshot := memory_snapshot |}.

Definition _resolve_session (memory_store : MemoryStore)
    (req : OrchestratorRequest) (now : datetime)
  : option SessionContext * MemoryStore :=
  MemoryStore.load memory_store (req_channel req) (req_user_id req)
                   (req_session_id req) (clock_load w).

(** [handle(req)] on the store. A context found by [load] is the
    object the mapping holds: what the turn assigns to it is seen
    through the mapping at once, also when the turn raises before
    [save]. A context made by [SessionContext.new] reaches the
    mapping by [save] only. *)
Definition handle (memory_store : MemoryStore) (req : OrchestratorRequest)
  : Res OrchestratorResponse * MemoryStore :=
  let now := clock_handle w in
  let '(found, memory_store) := _resolve_session memory_store req now in
  let key := MemoryStore._key (req_channel req) (req_user_id req)
                              (req_session_id req) in
  match found with
  | Some ctx =>
      let '(r, ctx') := handle_ctx req now ctx in
      let memory_store :=
        MemoryStore.with_store (<[key := ctx']> (_store memory_store))
                               memory_store in
      match r with
      | Ok resp => (Ok resp, MemoryStore.save memory_store ctx')
      | Raise e => (Raise e, memory_store)
      end
  | None =>
      let ctx := SessionContext.new (req_channel req) (req_user_id req)
                                    (req_session_id req) now in
      let '(r, ctx') := handle_ctx req now ctx in
      match r with
      | Ok resp => (Ok resp, MemoryStore.save memory_store ctx')
      | Raise e => (Raise e, memory_store)
      end
  end.

End Handlers.

End AgentCore.

(** ** A model of difflib for the worked scenarios *)

(** [SequenceMatcher(None, a, b)] without junk: the matching blocks are
    found by taking the longest common block (the one that starts earliest
    in [a], then earliest in [b]) and recursing on both sides of it;
    [ratio()] is [2.0 * M / T] for [M] matched characters out of
    [T = len(a) + len(b)], and [1.0] when [T = 0]. With [len(b) < 200] the
    popularity heuristic of difflib is off and this is its result, up to
    the rounding of the quotient, which is kept exact here: against the
    float [0.7] the exact quotient compares as the rounded one does (a
    quotient with [T < 10^15] other than [7/10] is further from [7/10]
    than the float is). *)
Module Difflib.

Fixpoint common_prefix (a b : list ascii) : nat :=
  match a, b with
  | x :: a', y :: b' => if decide (x = y) then S (common_prefix a' b') else 0
  | _, _ => 0
  end%nat.

(** Best block of [a] against the suffixes of [b], [j] counting the
    position in [b]: a later block wins only when strictly longer. *)
Fixpoint scan_b (a b : list ascii) (i j : nat) (best : nat * nat * nat)
  : nat * nat * nat :=
  match b with
  | [] => best
  | _ :: b' =>
      let k := common_prefix a b in
      let best := if (best.2 <? k)%nat then (i, j, k) else best in
      scan_b a b' i (S j) best
  end.

Fixpoint scan_a (a b : list ascii) (i : nat) (best : nat * nat * nat)
  : nat * nat * nat :=
  match a with
  | [] => best
  | _ :: a' => scan_a a' b (S i) (scan_b a b i 0%nat best)
  end.

(** [find_longest_match]: [(i, j, k)] with [a[i:i+k] == b[j:j+k]]. *)
Definition find_longest_match (a b : list ascii) : nat * nat * nat :=
  scan_a a b 0%nat (0, 0, 0)%nat.

(** Total size of the matching blocks. *)
Fixpoint matches (fuel : nat) (a b : list ascii) : nat :=
  match fuel with
  | O => 0
  | S fuel =>
      let '(i, j, k) := find_longest_match a b in
      if (k =? 0)%nat then 0
      else matches fuel (take i a) (take j b) + k
           + matches fuel (drop (i + k) a) (drop (j + k) b)
  end%nat.

Definition ratio (a b : string) : Q :=
  let la := list_ascii_of_string a in
  let lb := list_ascii_of_string b in
  let T := (length la + length lb)%nat in
  if (T =? 0)%nat then 1%Q
  else (2 * Z.of_nat (matches (S (length la)) la lb)) # Pos.of_nat T.

End Difflib.

(** [str()] on [None], booleans, integers and strings. The [repr] of a
    list is not spelled out: no scenario below formats one. *)
Definition str_of_scalar (v : pyval) : string :=
  match v with
  | VNone => "None"
  | VBool true => "True"
  | VBool false => "False"
  | VInt z => pretty z
  | VStr s => s
  | VItems _ => "[...]"
  end.

(** ** What the handlers leave alone *)

(** Relation between the context a handler receives and the one it leaves:
    identity and timestamps of the session and its short-term memory are
    untouched, and a completion flag that was set is still set. *)
Definition handlers_keep (ctx ctx' : SessionContext) : Prop :=
  session ctx' = session ctx
  /\ short_term ctx' = short_term ctx
  /\ (session_done (state ctx) = true -> session_done (state ctx') = true).

(** A computation that relates every context to the one it leaves,
    whether it returns or raises. *)
Definition preserves {A} (R : relation SessionContext) (m : M A) : Prop :=
  forall ctx, R ctx (m ctx).2.

(** A run of turns on one session record: each turn is the body of
    [handle] in its own world; the record carries over from turn to turn
    whether the turn returned or raised. *)
Definition run_turns (ratio : string -> string -> Q) (py_str : pyval -> string)
    (self : AgentCore) (turns : list (World * OrchestratorRequest))
    (ctx : SessionContext) : SessionContext :=
  fold_left
    (fun ctx '(w, req) =>
       (AgentCore.handle_ctx ratio py_str self w req (clock_handle w) ctx).2)
    turns ctx.

(** The context a call of [handle] works on: the one [load] finds, or a
    new one. *)
Definition resolved (w : World) (memory_store : MemoryStore)
    (req : OrchestratorRequest) : SessionContext :=
  match (MemoryStore.load memory_store (req_channel req) (req_user_id req)
                          (req_session_id req) (clock_load w)).1 with
  | Some ctx => ctx
  | None => SessionContext.new (req_channel req) (req_user_id req)
                               (req_session_id req) (clock_handle w)
  end.

Definition request_key (req : OrchestratorRequest) : SessionKey :=
  MemoryStore._key (req_channel req) (req_user_id req) (req_session_id req).

(** What [_route_intent] does around the handler it picks: the flow is
    set if it was not, and the flag returned is read off the state the
    handler leaves. *)
Definition with_default_flow (ctx : SessionContext) : SessionContext :=
  if flow (state ctx) is None
  then SessionContext.set_flow (Some "food_order") ctx else ctx.

Definition finish_route (out : Res string * SessionContext)
  : Res (string * bool) * SessionContext :=
  match out with
  | (Ok reply, ctx) => (Ok (reply, session_done (state ctx)), ctx)
  | (Raise e, ctx) => (Raise e, ctx)
  end.

(** The confirmation [_handle_order] builds from the webhook's reply. *)
Definition order_confirmation (py_str : pyval -> string) (data : pydict) : string :=
  let base := "I’ve placed your order" in
  let base :=
    if truthy (dict_get data "order_id")
    then base +:+ " with reference ID " +:+ py_str (dict_get data "order_id")
    else base in
  let base :=
    if truthy (dict_get data "eta")
    then base +:+ ". Estimated delivery time is " +:+ py_str (dict_get data "eta") +:+ "."
    else base +:+ "." in
  base +:+ " Thank you for ordering! Enjoy your meal.".

(** ** The specification's reading of an absent menu *)

(** The unmatched list that the specification gives for an empty menu
    cache: the input lines, trimmed, the empty ones left out, in input
    order. *)
Definition spec_unmatched_without_menu (ordered_items : list string) : list string :=
  List.filter PyStr.truthy (PyStr.strip <$> ordered_items).

(** ** Scenarios *)

Module Scenario.

(** A fresh session on the web channel, and the same session with a menu
    cached under ["menu_items"]. *)
Definition fresh : SessionContext := SessionContext.new "web" "u1" "s1" 0.

Definition with_menu (menu : list MenuItem) : SessionContext :=
  SessionContext.set_scratch "menu_items" (VItems menu) fresh.

(** The menu of the specification's scenarios. *)
Definition cheeseburger : MenuItem := ItemDict (Some "Cheeseburger") (Some "$8").
Definition fries : MenuItem := ItemDict (Some "Fries") (Some "$3").
Definition menu : list MenuItem := [cheeseburger; fries].

(** Two entries whose names differ by case only. *)
Definition fries_small : MenuItem := ItemDict (Some "Fries") (Some "$3").
Definition fries_large : MenuItem := ItemDict (Some "fries") (Some "$4").

(** A validator configured with threshold [0.0]. *)
Definition lenient : MenuValidator := {| fuzzy_threshold := 0 |}.

(** An orchestrator with the three n8n webhooks configured, the default
    matcher, and no POS bridge nor analytics webhook. *)
Definition core : AgentCore :=
  {| menu_validator := MenuValidator.init_default;
     n8n_gateway := {| menu_url := Some "https://n8n.example/menu";
                       phone_url := Some "https://n8n.example/phone";
                       order_url := Some "https://n8n.example/order" |};
     pos_gateway := {| pos_url := None |};
     analytics_gateway := {| analytics_url := None |} |}.

Definition intent_of (name : string) (lines : list string) : IntentData :=
  {| intent := name; phone := None; address := None; items := lines;
     notes := None; satisfaction := None |}.

(** A world in which the classifier answers [intent_data] and every n8n
    exchange comes to [exchange]. *)
Definition world (intent_data : IntentData) (exchange : HttpExchange) : World :=
  {| clock_handle := 1000; clock_load := 1001;
     classify := fun _ _ => Ok intent_data;
     n8n_http := fun _ _ => exchange;
     pos_http := Ok tt;
     analytics_http := Ok tt |}.

Definition request (user_text : string) : OrchestratorRequest :=
  {| req_channel := "web"; req_user_id := "u1"; req_session_id := "s1";
     req_text := user_text |}.

(** A session whose order has been placed. *)
Definition completed : SessionContext :=
  SessionContext.set_session_done true fresh.

(** A store that holds nothing yet, with the default TTL of 60 minutes;
    and one that holds the session with the specification's menu. *)
Definition empty_store : MemoryStore := MemoryStore.init 60.
Definition store_with_menu : MemoryStore :=
  MemoryStore.save empty_store (with_menu menu).

End Scenario.

(** ** Notions for the further properties *)

(** The test of [load] and [purge_expired] on a stored record. *)
Definition expired (store : MemoryStore) (now : datetime) (ctx : SessionContext) : bool :=
  now - last_seen_at (session ctx) >? ttl store.

(** A message appended to a session, by either of the two methods. *)
Inductive SessionOp :=
| UserSays (said : string) (at_time : datetime)
| AssistantSays (said : string) (at_time : datetime).

Definition apply_op (ctx : SessionContext) (op : SessionOp) : SessionContext :=
  match op with
  | UserSays said at_time => SessionContext.append_user_message said at_time ctx
  | AssistantSays said at_time =>
      SessionContext.append_assistant_message said at_time ctx
  end.

Definition apply_ops (ops : list SessionOp) (ctx : SessionContext) : SessionContext :=
  fold_left apply_op ops ctx.

Definition op_message (op : SessionOp) : Message :=
  match op with
  | UserSays said at_time => {| role := user; text := said; timestamp := at_time |}
  | AssistantSays said at_time =>
      {| role := assistant; text := said; timestamp := at_time |}
  end.

Definition is_user (m : Message) : bool :=
  match role m with user => true | _ => false end.

(** A line that [validate_items] does not skip. *)
Definition non_blank (raw : string) : bool := PyStr.truthy (PyStr.strip raw).

(** What the loop body adds for one line, on empty accumulators. *)
Definition line_result (ratio : string -> string -> Q) (self : MenuValidator)
    (menu : list MenuItem) (raw : string) : list MenuItem * list string :=
  match MenuValidator.validate_line ratio self
          (MenuValidator.build_lookup menu).1 (MenuValidator.build_lookup menu).2
          ([], []) raw with
  | Ok r => r
  | Raise _ => ([], [])
  end.

(** The step label [_route_intent] assigns for an intent. *)
Definition step_of_intent (intent : string) : string :=
  if decide (intent = "get_menu") then "menu"
  else if decide (intent = "provide_phone") then "phone"
  else if decide (intent = "provide_address") then "address"
  else if decide (intent = "place_order") then "order"
  else if decide (intent = "chitchat" \/ intent = "unknown") then "fallback"
  else "unknown".

(** A world that differs from [w] in what the POS and analytics posts
    come to only. *)
Definition with_notifications (pos analytics : Res unit) (w : World) : World :=
  {| clock_handle := clock_handle w; clock_load := clock_load w;
     classify := classify w; n8n_http := n8n_http w;
     pos_http := pos; analytics_http := analytics |}.

(** Relations between the context a handler receives and the one it
    leaves: the labels are untouched and no scratchpad key is lost; the
    completion flag is untouched. *)
Definition labels_and_keys_kept (ctx ctx' : SessionContext) : Prop :=
  flow (state ctx') = flow (state ctx)
  /\ step (state ctx') = step (state ctx)
  /\ forall k, is_Some (scratchpad (state ctx) !! k) ->
                is_Some (scratchpad (state ctx') !! k).

Definition done_unchanged (ctx ctx' : SessionContext) : Prop :=
  session_done (state ctx') = session_done (state ctx).

(** The context as [_route_intent] hands it to a handler. *)
Definition labelled (intent : string) (ctx : SessionContext) : SessionContext :=
  SessionContext.set_step (Some (step_of_intent intent)) (with_default_flow ctx).

(** The phone and the address a handler works with: the one of the
    intent, else the cached one. *)
Definition phone_at_hand (intent_data : IntentData) (ctx : SessionContext) : pyval :=
  py_or (of_opt_str (phone intent_data)) (dict_get (scratchpad (state ctx)) "phone").

Definition address_at_hand (intent_data : IntentData) (ctx : SessionContext) : pyval :=
  py_or (of_opt_str (address intent_data)) (dict_get (scratchpad (state ctx)) "address").

(** ** Further scenarios *)

Module Case.

(** Lines as a classifier may hand them over: spelled with other case and
    margins, blank, and unknown to the menu. *)
Definition order_lines : list string := ["cheese burger"; "   "; "pizza"; " FRIES "].

(** A menu none of whose entries has a name. *)
Definition nameless_menu : list MenuItem := [ItemDict None (Some "$1"); ItemStr "  "].

(** An orchestrator whose menu webhook is not configured. *)
Definition core_without_menu_url : AgentCore :=
  {| menu_validator := MenuValidator.init_default;
     n8n_gateway := {| menu_url := None;
                       phone_url := Some "https://n8n.example/phone";
                       order_url := Some "https://n8n.example/order" |};
     pos_gateway := {| pos_url := Some "https://pos.example/orders" |};
     analytics_gateway := {| analytics_url := Some "https://n8n.example/analytics" |} |}.

Definition phone_intent : IntentData :=
  {| intent := "provide_phone"; phone := Some "555 0100"; address := None;
     items := []; notes := None; satisfaction := None |}.

(** The phone webhook's answer: verified, with a normalized number. *)
Definition phone_answer : pydict :=
  {[ "verified" := VBool true; "normalized_phone" := VStr "+15550100" ]}.

(** The menu webhook's answer with the specification's menu. *)
Definition menu_answer : pydict := {[ "menu" := VItems Scenario.menu ]}.

End Case.

(** * Properties *)

(** ** SessionStore: load after save *)

Section StoreProps.
Implicit Types (store : MemoryStore) (ctx : SessionContext) (now : datetime).

Lemma save_lookup store ctx :
  _store (MemoryStore.save store ctx) !! key_of ctx = Some ctx.
Proof. unfold MemoryStore.save, key_of; simpl. apply lookup_insert_eq. Qed.

Lemma save_ttl store ctx : ttl (MemoryStore.save store ctx) = ttl store.
Proof. reflexivity. Qed.

Lemma load_live store k ctx now :
  _store store !! k = Some ctx ->
  now - last_seen_at (session ctx) <= ttl store ->
  load_key store k now = (Some ctx, store).
Proof.
  intros Hk Hlive. destruct k as [[c u] s].
  unfold load_key, MemoryStore.load, MemoryStore._key; simpl.
  rewrite Hk. destruct (Z.gtb_spec (now - last_seen_at (session ctx)) (ttl store)); [lia | done].
Qed.

Lemma load_expired store k ctx now :
  _store store !! k = Some ctx ->
  now - last_seen_at (session ctx) > ttl store ->
  load_key store k now
  = (None, MemoryStore.with_store (delete k (_store store)) store).
Proof.
  intros Hk Hdead. destruct k as [[c u] s].
  unfold load_key, MemoryStore.load, MemoryStore._key; simpl.
  rewrite Hk. destruct (Z.gtb_spec (now - last_seen_at (session ctx)) (ttl store)); [done | lia].
Qed.

Lemma load_absent store k now :
  _store store !! k = None -> load_key store k now = (None, store).
Proof.
  intros Hk. destruct k as [[c u] s].
  unfold load_key, MemoryStore.load, MemoryStore._key; simpl. by rewrite Hk.
Qed.

End StoreProps.

(** C3. A record saved under its key is loaded back unchanged, and the
    store is left as it was, while [now - last_seen_at <= ttl]; once
    [now - last_seen_at > ttl] the load gives nothing, pops the record
    from the mapping, and every later load of that key, at any clock,
    gives nothing either. *)
Theorem load_after_save (store : MemoryStore) (ctx : SessionContext) (now : datetime) :
  let saved := MemoryStore.save store ctx in
  (now - last_seen_at (session ctx) <= ttl store ->
     load_key saved (key_of ctx) now = (Some ctx, saved))
  /\ (now - last_seen_at (session ctx) > ttl store ->
        let after := (load_key saved (key_of ctx) now).2 in
        (load_key saved (key_of ctx) now).1 = None
        /\ _store after !! key_of ctx = None
        /\ forall later, load_key after (key_of ctx) later = (None, after)).
Proof.
  intros saved. subst saved. split; intros Hage.
  - apply load_live; [apply save_lookup | by rewrite save_ttl].
  - rewrite (load_expired _ _ ctx) by (apply save_lookup || by rewrite save_ttl).
    simpl. split; [done|]. split; [apply lookup_delete_eq|].
    intros later. apply load_absent. simpl. apply lookup_delete_eq.
Qed.

(** ** MenuMatcher *)

Section MatcherProps.
Import MenuValidator.
Variable ratio : string -> string -> Q.

Lemma truthy_nonempty (s : string) : PyStr.truthy s = true <-> s <> "".
Proof. destruct s; simpl; split; congruence. Qed.

Lemma lower_nonempty (s : string) : s <> "" -> PyStr.lower s <> "".
Proof. destruct s; simpl; congruence. Qed.

Lemma entry_key_nonempty (m : MenuItem) (k : string) :
  entry_key m = Some k -> k <> "".
Proof.
  unfold entry_key. destruct (PyStr.truthy (item_name m)) eqn:E; simpl; [|done].
  intros [= <-]. by apply lower_nonempty, truthy_nonempty.
Qed.

(** *** The lookup built from the menu *)

Lemma add_name_key (acc : gmap string MenuItem * list string) (m : MenuItem) :
  add_name acc m =
    match entry_key m with
    | Some k => (<[k := m]> acc.1, acc.2 ++ [k])
    | None => acc
    end.
Proof.
  destruct acc as [n2i names]. unfold add_name, entry_key.
  by destruct (PyStr.truthy (item_name m)).
Qed.

Lemma build_lookup_snoc (menu : list MenuItem) (m : MenuItem) :
  build_lookup (menu ++ [m]) = add_name (build_lookup menu) m.
Proof. unfold build_lookup. by rewrite fold_left_app. Qed.

(** [names_lower] lists the keys of the entries, in menu order. *)
Lemma build_lookup_names (menu : list MenuItem) :
  (build_lookup menu).2 = omap entry_key menu.
Proof.
  induction menu as [|m menu IH] using rev_ind; [done|].
  rewrite build_lookup_snoc, add_name_key, omap_app. simpl.
  destruct (entry_key m); simpl; rewrite IH; [done | by rewrite app_nil_r].
Qed.

(** [name_to_item] holds, under each key, the last entry filed there. *)
Lemma build_lookup_lookup (menu : list MenuItem) (k : string) :
  match (build_lookup menu).1 !! k with
  | Some e => last_under k menu e
  | None => Forall (fun x => entry_key x <> Some k) menu
  end.
Proof.
  induction menu as [|m menu IH] using rev_ind.
  { simpl. rewrite lookup_empty. constructor. }
  rewrite build_lookup_snoc, add_name_key.
  destruct (entry_key m) as [k'|] eqn:Ek; simpl.
  - destruct (decide (k' = k)) as [->|Hne].
    + rewrite lookup_insert_eq. exists menu, []. by repeat split.
    + rewrite lookup_insert_ne by done.
      destruct ((build_lookup menu).1 !! k) as [e|].
      * destruct IH as (pre & post & -> & He & Hpost).
        exists pre, (post ++ [m]). rewrite <- app_assoc. simpl.
        repeat split; [done|]. apply Forall_app; split; [done|].
        constructor; [|done]. rewrite Ek. congruence.
      * apply Forall_app; split; [done|]. constructor; [|done].
        rewrite Ek. congruence.
  - destruct ((build_lookup menu).1 !! k) as [e|].
    + destruct IH as (pre & post & -> & He & Hpost).
      exists pre, (post ++ [m]). rewrite <- app_assoc. simpl.
      repeat split; [done|]. apply Forall_app; split; [done|].
      constructor; [|done]. by rewrite Ek.
    + apply Forall_app; split; [done|]. constructor; [|done]. by rewrite Ek.
Qed.

Lemma last_under_elem (k : string) (menu : list MenuItem) (e : MenuItem) :
  last_under k menu e -> e ∈ menu /\ entry_key e = Some k.
Proof.
  intros (pre & post & -> & He & _). split; [|done].
  apply elem_of_app; right. constructor.
Qed.

(** Every candidate name is a key of the lookup. *)
Lemma names_in_lookup (menu : list MenuItem) (k : string) :
  k ∈ (build_lookup menu).2 -> is_Some ((build_lookup menu).1 !! k).
Proof.
  rewrite build_lookup_names. intros (m & Hm & Hk)%list_elem_of_omap.
  pose proof (build_lookup_lookup menu k) as H.
  destruct ((build_lookup menu).1 !! k); [by eexists|].
  rewrite Forall_forall in H. by destruct (H m Hm).
Qed.

Lemma names_nonempty (menu : list MenuItem) (k : string) :
  k ∈ (build_lookup menu).2 -> k <> "".
Proof.
  rewrite build_lookup_names. intros (m & _ & Hk)%list_elem_of_omap.
  by eapply entry_key_nonempty.
Qed.

End MatcherProps.

Section FuzzyProps.
Import MenuValidator.
Variable ratio : string -> string -> Q.

Lemma Qgtb_lt (x y : Q) : Qgtb x y = true <-> (y < x)%Q.
Proof.
  unfold Qgtb. rewrite negb_true_iff, <- not_true_iff_false, Qle_bool_iff.
  split; [apply Qnot_le_lt | apply Qlt_not_le].
Qed.

Lemma Qgtb_le (x y : Q) : Qgtb x y = false <-> (x <= y)%Q.
Proof. unfold Qgtb. by rewrite negb_false_iff, Qle_bool_iff. Qed.

Lemma Qgeb_le (x y : Q) : Qgeb x y = true <-> (y <= x)%Q.
Proof. unfold Qgeb. apply Qle_bool_iff. Qed.

Lemma first_maximum_bound cand_lower names_lower best :
  first_maximum ratio cand_lower names_lower best ->
  (0 <= best.2)%Q /\ Forall (fun x => (ratio cand_lower x <= best.2)%Q) names_lower.
Proof.
  destruct best as [[n|] r]; simpl.
  - intros (pre & post & -> & -> & Hpos & Hpre & Hpost). split; [lra|].
    apply Forall_app; split.
    + eapply Forall_impl; [exact Hpre|]. simpl. intros; lra.
    + constructor; [lra | done].
  - intros [-> H]. split; [lra | done].
Qed.

Lemma fuzzy_best_snoc cand_lower names_lower y :
  fuzzy_best ratio cand_lower (names_lower ++ [y])
  = fuzzy_step ratio cand_lower (fuzzy_best ratio cand_lower names_lower) y.
Proof. unfold fuzzy_best. by rewrite fold_left_app. Qed.

Lemma fuzzy_best_inv cand_lower names_lower :
  first_maximum ratio cand_lower names_lower (fuzzy_best ratio cand_lower names_lower).
Proof.
  induction names_lower as [|y names IH] using rev_ind.
  { simpl. split; [done | constructor]. }
  rewrite fuzzy_best_snoc.
  pose proof (first_maximum_bound _ _ _ IH) as [Hnonneg Hall].
  destruct (fuzzy_best ratio cand_lower names) as [bm r]; simpl in *.
  unfold fuzzy_step; simpl.
  destruct (Qgtb (ratio cand_lower y) r) eqn:Hcmp.
  - apply Qgtb_lt in Hcmp. exists names, []. repeat split; [lra| |constructor].
    eapply Forall_impl; [exact Hall|]. simpl. intros; lra.
  - apply Qgtb_le in Hcmp. destruct bm as [n|].
    + destruct IH as (pre & post & -> & -> & Hpos & Hpre & Hpost).
      exists pre, (post ++ [y]). rewrite <- app_assoc. simpl.
      repeat split; [done..|]. apply Forall_app; split; [done|].
      by constructor.
    + destruct IH as [-> Hle]. split; [done|].
      apply Forall_app; split; [done|]. by constructor.
Qed.

(** C7. In the scan of one line, a name replaces the current best
    exactly when its ratio is strictly greater than the current
    maximum; so the name the scan ends on is the first one, in menu
    order, that reaches the largest ratio (every earlier name is
    strictly below it, no later name above it), and no name is chosen
    when no ratio is positive. The result is a function of the line
    and of the ordered list of names. *)
Theorem fuzzy_keeps_first_maximum (cand_lower : string) (names_lower : list string) :
  (forall best name_lower,
      fuzzy_step ratio cand_lower best name_lower
      = if Qgtb (ratio cand_lower name_lower) best.2
        then (Some name_lower, ratio cand_lower name_lower) else best)
  /\ (forall best name_lower,
        fuzzy_step ratio cand_lower best name_lower <> best ->
        (best.2 < ratio cand_lower name_lower)%Q)
  /\ first_maximum ratio cand_lower names_lower
       (fuzzy_best ratio cand_lower names_lower).
Proof.
  split; [done|]. split; [|apply fuzzy_best_inv].
  intros best name_lower. unfold fuzzy_step.
  destruct (Qgtb _ _) eqn:Hcmp; [by rewrite Qgtb_lt in Hcmp | done].
Qed.

End FuzzyProps.

Section LineProps.
Import MenuValidator.
Variable ratio : string -> string -> Q.
Implicit Types (self : MenuValidator) (menu : list MenuItem)
  (acc : list MenuItem * list string) (raw : string).

Lemma lower_empty (s : string) : PyStr.lower s = "" -> s = "".
Proof. by destruct s. Qed.

Lemma validate_line_blank self n2i names acc raw :
  PyStr.strip raw = "" ->
  validate_line ratio self n2i names acc raw = Ok acc.
Proof. intros E. destruct acc. unfold validate_line. by rewrite E. Qed.

Lemma validate_line_exact self n2i names acc raw m :
  PyStr.strip raw <> "" ->
  n2i !! PyStr.lower (PyStr.strip raw) = Some m ->
  validate_line ratio self n2i names acc raw = Ok (acc.1 ++ [m], acc.2).
Proof.
  intros Hne Hm. destruct acc. unfold validate_line.
  apply truthy_nonempty in Hne. by rewrite Hne, Hm.
Qed.

(** Without an exact match the outcome is read off the scan. *)
Lemma validate_line_fuzzy self n2i names acc raw :
  PyStr.strip raw <> "" ->
  n2i !! PyStr.lower (PyStr.strip raw) = None ->
  validate_line ratio self n2i names acc raw =
    let best := fuzzy_best ratio (PyStr.lower (PyStr.strip raw)) names in
    if truthy (of_opt_str best.1) && Qgeb best.2 (fuzzy_threshold self)
    then match n2i !! default "" best.1 with
         | Some m => Ok (acc.1 ++ [m], acc.2)
         | None => Raise KeyError
         end
    else Ok (acc.1, acc.2 ++ [PyStr.strip raw]).
Proof.
  intros Hne Hm. destruct acc. unfold validate_line.
  apply truthy_nonempty in Hne. rewrite Hne, Hm. simpl.
  by destruct (fuzzy_best _ _ _).
Qed.

(** C6, as the code has it. A line whose stripped, lower-cased form is
    the (non-empty) normalized name of an entry [e] of the cached menu is
    matched at once, whatever the similarity function and the threshold:
    the entry appended is the one the lookup holds under that name, the
    last entry of the menu that bears it, which is [e] itself when no
    other entry bears the name. *)
Theorem exact_match_bypasses_fuzzy self menu acc raw (e : MenuItem) :
  e ∈ menu ->
  item_name e <> "" ->
  PyStr.lower (item_name e) = PyStr.lower (PyStr.strip raw) ->
  exists e',
    validate_line ratio self (build_lookup menu).1 (build_lookup menu).2 acc raw
    = Ok (acc.1 ++ [e'], acc.2)
    /\ last_under (PyStr.lower (PyStr.strip raw)) menu e'
    /\ ((forall x, x ∈ menu ->
           entry_key x = Some (PyStr.lower (PyStr.strip raw)) -> x = e) ->
        e' = e).
Proof.
  intros He Hname Heq.
  assert (entry_key e = Some (PyStr.lower (PyStr.strip raw))) as Hkey.
  { unfold entry_key. apply truthy_nonempty in Hname. rewrite Hname. simpl.
    by rewrite Heq. }
  assert (PyStr.strip raw <> "") as Hraw.
  { intros E. rewrite E in Heq. simpl in Heq. by apply lower_empty in Heq. }
  pose proof (build_lookup_lookup menu (PyStr.lower (PyStr.strip raw))) as Hl.
  destruct ((build_lookup menu).1 !! PyStr.lower (PyStr.strip raw)) as [e'|] eqn:El.
  - exists e'. split; [by apply validate_line_exact|]. split; [done|].
    intros Huniq. destruct (last_under_elem _ _ _ Hl). by apply Huniq.
  - rewrite Forall_forall in Hl. by destruct (Hl e He).
Qed.

(** C8, as the code has it. For a positive threshold, a non-blank line
    with no exact match is matched if and only if some candidate name has
    a ratio at or above the threshold, that is, if and only if the largest
    ratio the scan has seen is at or above it (the comparison is [>=]);
    the entry appended is then an entry of the menu. Otherwise the
    stripped line goes to the unmatched list. *)
Theorem fuzzy_threshold_decides self menu acc raw :
  let cand_lower := PyStr.lower (PyStr.strip raw) in
  let reaches := exists n, n ∈ (build_lookup menu).2
                           /\ (fuzzy_threshold self <= ratio cand_lower n)%Q in
  let outcome :=
    validate_line ratio self (build_lookup menu).1 (build_lookup menu).2 acc raw in
  let best_ratio := (fuzzy_best ratio cand_lower (build_lookup menu).2).2 in
  (0 < fuzzy_threshold self)%Q ->
  PyStr.strip raw <> "" ->
  (build_lookup menu).1 !! cand_lower = None ->
  (reaches <-> (fuzzy_threshold self <= best_ratio)%Q)
  /\ (reaches -> exists m, m ∈ menu /\ outcome = Ok (acc.1 ++ [m], acc.2))
  /\ (~ reaches -> outcome = Ok (acc.1, acc.2 ++ [PyStr.strip raw])).
Proof.
  intros cand_lower reaches outcome best_ratio Hpos Hraw Hmiss.
  pose proof (fuzzy_best_inv ratio cand_lower (build_lookup menu).2) as Hinv.
  pose proof (first_maximum_bound _ _ _ _ Hinv) as [_ Hall].
  split.
  { subst best_ratio reaches. split.
    - intros (n0 & Hn0 & Hle). rewrite Forall_forall in Hall.
      specialize (Hall n0 Hn0). simpl in Hall. lra.
    - intros Hle.
      destruct (fuzzy_best ratio cand_lower (build_lookup menu).2) as [[n|] r];
        simpl in *.
      + destruct Hinv as (pre & post & Hnames & -> & _).
        exists n. split; [|done]. rewrite Hnames.
        apply elem_of_app; right; constructor.
      + destruct Hinv as [-> _]. lra. }
  clear best_ratio.
  subst outcome. rewrite validate_line_fuzzy by done. fold cand_lower.
  cbv zeta. destruct (fuzzy_best ratio cand_lower (build_lookup menu).2) as [[n|] r];
    simpl in *.
  - destruct Hinv as (pre & post & Hnames & -> & Hr & _ & _).
    assert (n ∈ (build_lookup menu).2) as Hn.
    { rewrite Hnames. apply elem_of_app; right; constructor. }
    assert (PyStr.truthy n = true) as ->
      by (eapply truthy_nonempty, names_nonempty, Hn).
    simpl. destruct (Qgeb (ratio cand_lower n) (fuzzy_threshold self)) eqn:Hge.
    + apply Qgeb_le in Hge. split; [|intros Hno; destruct Hno; by exists n].
      intros _. destruct (names_in_lookup menu n Hn) as [m Hm].
      pose proof (build_lookup_lookup menu n) as Hl. rewrite Hm in Hl |- *.
      exists m. split; [by destruct (last_under_elem _ _ _ Hl) | done].
    + split; [|done]. intros (n0 & Hn0 & Hle).
      rewrite Forall_forall in Hall. specialize (Hall n0 Hn0).
      assert (Qgeb (ratio cand_lower n) (fuzzy_threshold self) = true)
        by (apply Qgeb_le; lra).
      congruence.
  - destruct Hinv as [-> _]. split; [|done]. intros (n0 & Hn0 & Hle).
    rewrite Forall_forall in Hall. specialize (Hall n0 Hn0). simpl in Hall. lra.
Qed.

End LineProps.

Section ValidateItemsProps.
Import MenuValidator.
Variable ratio : string -> string -> Q.
Implicit Types (self : MenuValidator) (ctx : SessionContext).

(** The menu a context caches, as [validate_items] reads it:
    [ctx.state.scratchpad.get("menu_items") or []]. *)
Lemma validate_items_unfold self ordered_items ctx :
  validate_items ratio self ordered_items ctx =
    let menu_items :=
      py_or (dict_get (scratchpad (state ctx)) "menu_items") (VItems []) in
    (if negb (truthy menu_items) then Ok ([], ordered_items)
     else
       ms ← py_iter menu_items;
       res_foldl (validate_line ratio self (build_lookup ms).1 (build_lookup ms).2)
                 ordered_items ([], []),
     ctx).
Proof.
  unfold validate_items, mbind, M_bind, M.scratch_get, M.gets, M.lift, mret, M_ret.
  cbv zeta. destruct (negb (truthy _)); [done|]. f_equal.
  destruct (py_iter _) as [ms|]; [|done]. simpl.
  by destruct (build_lookup ms).
Qed.

(** Without a cached menu every line comes back as it was given. *)
Lemma validate_items_no_menu self ordered_items ctx :
  truthy (py_or (dict_get (scratchpad (state ctx)) "menu_items") (VItems [])) = false ->
  validate_items ratio self ordered_items ctx = (Ok ([], ordered_items), ctx).
Proof. intros E. rewrite validate_items_unfold. cbv zeta. by rewrite E. Qed.

(** With a list cached, the method folds [validate_line] over the lines. *)
Lemma validate_items_menu self ordered_items ctx (menu : list MenuItem) :
  scratchpad (state ctx) !! "menu_items" = Some (VItems menu) ->
  menu <> [] ->
  validate_items ratio self ordered_items ctx =
    (res_foldl (validate_line ratio self (build_lookup menu).1 (build_lookup menu).2)
               ordered_items ([], []),
     ctx).
Proof.
  intros Hm Hne. rewrite validate_items_unfold. unfold dict_get. rewrite Hm.
  destruct menu; [done|]. reflexivity.
Qed.

(** C9. [validate_items] hands the context back as it received it
    (scratchpad, state, meta and history included), and its result,
    raised or returned, is the same on any two contexts that cache the
    same value under ["menu_items"]: it depends on the input list, the
    cached menu, and the validator's threshold only. *)
Theorem validate_items_reads_menu_only self ordered_items (ctx ctx' : SessionContext) :
  (validate_items ratio self ordered_items ctx).2 = ctx
  /\ (scratchpad (state ctx) !! "menu_items" = scratchpad (state ctx') !! "menu_items" ->
      (validate_items ratio self ordered_items ctx).1
      = (validate_items ratio self ordered_items ctx').1).
Proof.
  rewrite !validate_items_unfold. cbv zeta. split; [done|].
  intros E. unfold dict_get. by rewrite E.
Qed.

End ValidateItemsProps.

(** C5, on the code. With no menu cached, the lines [["  pizza "; ""]]
    come back untouched as the unmatched list, where the specification
    asks for the trimmed, non-empty lines [["pizza"]]. *)
Theorem empty_menu_returns_raw_lines :
  MenuValidator.validate_items Difflib.ratio MenuValidator.init_default
    ["  pizza "; ""] Scenario.fresh
  = (Ok ([], ["  pizza "; ""]), Scenario.fresh)
  /\ spec_unmatched_without_menu ["  pizza "; ""] = ["pizza"].
Proof. split; [by apply validate_items_no_menu | reflexivity]. Qed.

(** *** Worked scenarios of the matcher *)

(** The specification's scenario: ["cheese burger"] and ["fries"] against
    the cached menu, threshold [0.7]: both entries, in order. *)
Example scenario_both_matched :
  MenuValidator.validate_items Difflib.ratio MenuValidator.init_default
    ["cheese burger"; "fries"] (Scenario.with_menu Scenario.menu)
  = (Ok ([Scenario.cheeseburger; Scenario.fries], []),
     Scenario.with_menu Scenario.menu).
Proof. vm_compute. reflexivity. Qed.

(** ["pizza"] against the same menu: unmatched. *)
Example scenario_pizza_unmatched :
  MenuValidator.validate_items Difflib.ratio MenuValidator.init_default
    ["pizza"] (Scenario.with_menu Scenario.menu)
  = (Ok ([], ["pizza"]), Scenario.with_menu Scenario.menu).
Proof. vm_compute. reflexivity. Qed.

(** A ratio of exactly [14/20] reaches the threshold [0.7]; [12/20] does
    not. *)
Example scenario_threshold_boundary :
  Difflib.ratio "abcdefgxyz" "abcdefgqrs" == 7 # 10
  /\ MenuValidator.validate_items Difflib.ratio MenuValidator.init_default
       ["abcdefgxyz"] (Scenario.with_menu [ItemStr "abcdefgqrs"])
     = (Ok ([ItemStr "abcdefgqrs"], []), Scenario.with_menu [ItemStr "abcdefgqrs"])
  /\ Difflib.ratio "abcdefxyzw" "abcdefqrst" == 6 # 10
  /\ MenuValidator.validate_items Difflib.ratio MenuValidator.init_default
       ["abcdefxyzw"] (Scenario.with_menu [ItemStr "abcdefqrst"])
     = (Ok ([], ["abcdefxyzw"]), Scenario.with_menu [ItemStr "abcdefqrst"]).
Proof. repeat split; vm_compute; reflexivity. Qed.

(** The precedence example of the specification: ["Cheeseburger"] against
    the names ["cheeseburger"] and ["cheese burger deluxe"]. *)
Lemma exact_match_cheeseburger :
  let menu := [ItemStr "cheeseburger"; ItemStr "cheese burger deluxe"] in
  exists e',
    MenuValidator.validate_line Difflib.ratio MenuValidator.init_default
      (MenuValidator.build_lookup menu).1 (MenuValidator.build_lookup menu).2
      ([], []) "Cheeseburger"
    = Ok ([] ++ [e'], [])
    /\ MenuValidator.last_under (PyStr.lower (PyStr.strip "Cheeseburger")) menu e'
    /\ ((forall x, x ∈ menu ->
           MenuValidator.entry_key x
           = Some (PyStr.lower (PyStr.strip "Cheeseburger")) ->
           x = ItemStr "cheeseburger") ->
        e' = ItemStr "cheeseburger").
Proof.
  apply (exact_match_bypasses_fuzzy Difflib.ratio MenuValidator.init_default
           [ItemStr "cheeseburger"; ItemStr "cheese burger deluxe"] ([], [])
           "Cheeseburger" (ItemStr "cheeseburger")).
  - apply list_elem_of_here.
  - discriminate.
  - reflexivity.
Defined.

(** C6 as stated fails when two entries bear the same normalized name:
    the line ["fries"] equals the normalized name of the first entry, and
    the second is the one accepted. *)
Lemma exact_match_takes_last_duplicate :
  let menu := [Scenario.fries_small; Scenario.fries_large] in
  Scenario.fries_small ∈ menu
  /\ PyStr.lower (MenuValidator.item_name Scenario.fries_small)
     = PyStr.lower (PyStr.strip "fries")
  /\ MenuValidator.validate_items Difflib.ratio MenuValidator.init_default
       ["fries"] (Scenario.with_menu menu)
     = (Ok ([Scenario.fries_large], []), Scenario.with_menu menu)
  /\ Scenario.fries_large <> Scenario.fries_small.
Proof.
  cbv zeta. split; [apply list_elem_of_here|]. split; [reflexivity|].
  split; [vm_compute; reflexivity | discriminate].
Qed.

(** The threshold theorem at the default threshold: the line
    ["abcdefgxyz"] against the single name ["abcdefgqrs"]. *)
Lemma fuzzy_threshold_at_default :
  let self := MenuValidator.init_default in
  let menu := [ItemStr "abcdefgqrs"] in
  let cand_lower := PyStr.lower (PyStr.strip "abcdefgxyz") in
  let reaches :=
    exists n, n ∈ (MenuValidator.build_lookup menu).2
              /\ (fuzzy_threshold self <= Difflib.ratio cand_lower n)%Q in
  let outcome :=
    MenuValidator.validate_line Difflib.ratio self
      (MenuValidator.build_lookup menu).1 (MenuValidator.build_lookup menu).2
      ([], []) "abcdefgxyz" in
  (reaches <->
     (fuzzy_threshold self
      <= (MenuValidator.fuzzy_best Difflib.ratio cand_lower
            (MenuValidator.build_lookup menu).2).2)%Q)
  /\ (reaches -> exists m, m ∈ menu /\ outcome = Ok ([] ++ [m], []))
  /\ (~ reaches -> outcome = Ok ([], [] ++ [PyStr.strip "abcdefgxyz"])).
Proof.
  apply (fuzzy_threshold_decides Difflib.ratio MenuValidator.init_default
           [ItemStr "abcdefgqrs"] ([], []) "abcdefgxyz").
  - reflexivity.
  - discriminate.
  - reflexivity.
Defined.

(** C8 as stated fails at a threshold of zero: against the single name
    ["ab"] the line ["zz"] has no exact match and its largest ratio, [0],
    is at the threshold, yet the line is unmatched. *)
Lemma zero_threshold_leaves_unmatched :
  let menu := [ItemStr "ab"] in
  (MenuValidator.build_lookup menu).1 !! PyStr.lower (PyStr.strip "zz") = None
  /\ (MenuValidator.build_lookup menu).2 = ["ab"]
  /\ (fuzzy_threshold Scenario.lenient <= Difflib.ratio "zz" "ab")%Q
  /\ MenuValidator.validate_items Difflib.ratio Scenario.lenient
       ["zz"] (Scenario.with_menu menu)
     = (Ok ([], ["zz"]), Scenario.with_menu menu).
Proof.
  cbv zeta. split; [reflexivity|]. split; [reflexivity|].
  split; [|vm_compute; reflexivity].
  vm_compute. discriminate.
Qed.

(** ** StepDispatcher and TurnCoordinator *)

Section FrameRules.
Context {R : relation SessionContext} `{!PreOrder R}.

Lemma preserves_ret {A} (a : A) : preserves R (mret a).
Proof. intros ctx. simpl. reflexivity. Qed.

Lemma preserves_bind {A B} (m : M A) (k : A -> M B) :
  preserves R m -> (forall a, preserves R (k a)) -> preserves R (m ≫= k).
Proof.
  intros Hm Hk ctx. unfold mbind, M_bind. specialize (Hm ctx).
  destruct (m ctx) as [[a|e] ctx1]; simpl in *; [|done].
  etrans; [exact Hm | apply Hk].
Qed.

Lemma preserves_get : preserves R M.get.
Proof. intros ctx. simpl. reflexivity. Qed.

Lemma preserves_gets {A} (f : SessionContext -> A) : preserves R (M.gets f).
Proof. intros ctx. simpl. reflexivity. Qed.

Lemma preserves_scratch_get (k : string) : preserves R (M.scratch_get k).
Proof. apply preserves_gets. Qed.

Lemma preserves_lift {A} (r : Res A) : preserves R (M.lift r).
Proof. intros ctx. simpl. reflexivity. Qed.

Lemma preserves_modify (f : SessionContext -> SessionContext) :
  (forall ctx, R ctx (f ctx)) -> preserves R (M.modify f).
Proof. intros Hf ctx. apply Hf. Qed.

End FrameRules.

#[local] Instance handlers_keep_preorder : PreOrder handlers_keep.
Proof.
  split.
  - intros ctx. by repeat split.
  - intros c1 c2 c3 (Hs1 & Hm1 & Hd1) (Hs2 & Hm2 & Hd2).
    repeat split; [congruence | congruence | auto].
Qed.

Lemma keep_set_flow v ctx : handlers_keep ctx (SessionContext.set_flow v ctx).
Proof. by repeat split. Qed.

Lemma keep_set_step v ctx : handlers_keep ctx (SessionContext.set_step v ctx).
Proof. by repeat split. Qed.

Lemma keep_set_scratch k v ctx : handlers_keep ctx (SessionContext.set_scratch k v ctx).
Proof. by repeat split. Qed.

Lemma keep_set_done_true ctx :
  handlers_keep ctx (SessionContext.set_session_done true ctx).
Proof. by repeat split. Qed.

Lemma keep_set_done_same ctx :
  handlers_keep ctx (SessionContext.set_session_done (session_done (state ctx)) ctx).
Proof. by repeat split. Qed.

Create HintDb frame.

#[local] Hint Resolve keep_set_flow keep_set_step keep_set_scratch
  keep_set_done_true : frame.

(** One step through a handler's body. *)
Ltac frame_step :=
  lazymatch goal with
  | |- preserves _ (mret _) => apply preserves_ret
  | |- preserves _ M.get => apply preserves_get
  | |- preserves _ (M.gets _) => apply preserves_gets
  | |- preserves _ (M.scratch_get _) => apply preserves_scratch_get
  | |- preserves _ (M.lift _) => apply preserves_lift
  | |- preserves _ (M.modify _) => apply preserves_modify; intros; auto with frame
  | |- preserves _ (mbind _ _) => apply preserves_bind; [ | intros ? ]
  | |- preserves _ (if ?b then _ else _) => destruct b
  | |- preserves _ (match ?x with _ => _ end) => destruct x
  end.

Ltac frame := repeat frame_step.

Section AgentProps.
Import AgentCore.
Variable ratio : string -> string -> Q.
Variable py_str : pyval -> string.
Variable self : AgentCore.
Variable w : World.

Lemma validate_items_preserves (R : relation SessionContext) `{!Reflexive R}
    (mv : MenuValidator) ordered_items :
  preserves R (MenuValidator.validate_items ratio mv ordered_items).
Proof. intros ctx. rewrite validate_items_unfold. simpl. reflexivity. Qed.

Lemma _handle_get_menu_keeps intent_data :
  preserves handlers_keep (_handle_get_menu self w intent_data).
Proof. unfold _handle_get_menu. frame. Qed.

Lemma _handle_phone_keeps intent_data :
  preserves handlers_keep (_handle_phone py_str self w intent_data).
Proof. unfold _handle_phone. frame. Qed.

Lemma _handle_address_keeps intent_data :
  preserves handlers_keep (_handle_address py_str intent_data).
Proof. unfold _handle_address. frame. Qed.

Lemma _handle_order_keeps intent_data :
  preserves handlers_keep (_handle_order ratio py_str self w intent_data).
Proof.
  unfold _handle_order.
  do 2 (apply preserves_bind; [frame | intros ?]).
  apply preserves_bind; [apply validate_items_preserves; apply _ | intros ?].
  frame.
Qed.

Lemma bind_run {A B} (m : M A) (k : A -> M B) ctx :
  (m ≫= k) ctx =
    match m ctx with
    | (Ok a, ctx') => k a ctx'
    | (Raise e, ctx') => (Raise e, ctx')
    end.
Proof. reflexivity. Qed.

Lemma bind_inv {A B} (m : M A) (k : A -> M B) ctx b ctx' :
  (m ≫= k) ctx = (Ok b, ctx') ->
  exists a ctx1, m ctx = (Ok a, ctx1) /\ k a ctx1 = (Ok b, ctx').
Proof.
  rewrite bind_run. destruct (m ctx) as [[a|e] ctx1]; [|done].
  intros H. by exists a, ctx1.
Qed.

Lemma send_analytics_ok (gw : AnalyticsGateway) :
  AnalyticsGateway.send_analytics gw w = Ok tt.
Proof.
  unfold AnalyticsGateway.send_analytics.
  destruct (negb _); [done|]. by destruct (analytics_http w).
Qed.

Lemma send_to_pos_ok (gw : POSGateway) : POSGateway.send_to_pos gw w = Ok tt.
Proof.
  unfold POSGateway.send_to_pos.
  destruct (negb _); [done|]. by destruct (pos_http w).
Qed.

Lemma _route_intent_keeps req intent_data now :
  preserves handlers_keep (_route_intent ratio py_str self w req intent_data now).
Proof.
  unfold _route_intent.
  apply preserves_bind; [frame | intros ctx0].
  apply preserves_bind; [frame | intros _].
  apply preserves_bind; [|intros; frame].
  repeat case_decide;
    (apply preserves_bind; [frame | intros _]);
    first [ apply _handle_get_menu_keeps | apply _handle_phone_keeps
          | apply _handle_address_keeps | apply _handle_order_keeps | frame ].
Qed.

(** The flag [_route_intent] returns is the flag of the state it leaves. *)
Lemma _route_intent_flag req intent_data now ctx reply d ctx' :
  _route_intent ratio py_str self w req intent_data now ctx = (Ok (reply, d), ctx') ->
  d = session_done (state ctx').
Proof.
  unfold _route_intent. intros H.
  apply bind_inv in H as (c0 & ctx1 & _ & H).
  apply bind_inv in H as (? & ctx2 & _ & H).
  apply bind_inv in H as (reply' & ctx3 & _ & H).
  apply bind_inv in H as (d' & ctx4 & Hd & H).
  unfold M.gets in Hd. unfold mret, M_ret in H. congruence.
Qed.

(** The body of [handle], step by step. *)
Lemma handle_ctx_unfold req now ctx :
  handle_ctx ratio py_str self w req now ctx =
    let ctx1 := SessionContext.append_user_message (req_text req) now ctx in
    match classify w (req_text req)
                   (text <$> LLMBasedIntentRouter.last5 (history (short_term ctx1))) with
    | Raise e => (Raise e, ctx1)
    | Ok intent_data =>
        match _route_intent ratio py_str self w req intent_data now ctx1 with
        | (Raise e, ctx2) => (Raise e, ctx2)
        | (Ok (reply, d), ctx2) =>
            let ctx3 := SessionContext.set_session_done d ctx2 in
            (Ok {| reply_text := reply; resp_session_done := d;
                   memory_snapshot := MemorySnapshot.from_ctx ctx3 |}, ctx3)
        end
    end.
Proof.
  cbv zeta. unfold handle_ctx. rewrite bind_run.
  change (M.modify ?f ctx) with (Ok tt, f ctx). cbv iota beta.
  rewrite bind_run. unfold LLMBasedIntentRouter.route. rewrite bind_run.
  unfold M.get, M.lift. cbv iota beta.
  destruct (classify w (req_text req) _) as [intent_data|e]; [|done].
  rewrite bind_run.
  destruct (_route_intent ratio py_str self w req intent_data now _)
    as [[[reply d]|e] ctx2]; [|done].
  rewrite !bind_run. simpl. by rewrite send_analytics_ok.
Qed.

(** The turn on a resolved context: first the user message is appended,
    then nothing but the handlers' assignments happens to the context. *)
Lemma handle_ctx_spec req now ctx :
  let out := handle_ctx ratio py_str self w req now ctx in
  handlers_keep (SessionContext.append_user_message (req_text req) now ctx) out.2
  /\ forall resp, out.1 = Ok resp ->
       resp_session_done resp = session_done (state out.2)
       /\ memory_snapshot resp = MemorySnapshot.from_ctx out.2.
Proof.
  cbv zeta. rewrite handle_ctx_unfold. cbv zeta.
  set (ctx1 := SessionContext.append_user_message (req_text req) now ctx).
  destruct (classify w (req_text req) _) as [intent_data|e].
  2: { split; [reflexivity | done]. }
  pose proof (_route_intent_keeps req intent_data now ctx1) as Hkeep.
  destruct (_route_intent ratio py_str self w req intent_data now ctx1)
    as [[[reply d]|e] ctx2] eqn:Eroute; simpl in Hkeep.
  2: { split; [exact Hkeep | done]. }
  apply _route_intent_flag in Eroute as ->. simpl.
  split; [|by intros resp [= <-]].
  etrans; [exact Hkeep | apply keep_set_done_same].
Qed.

(** [handle] returns or raises as its body does on the resolved context. *)
Lemma handle_result memory_store req :
  (handle ratio py_str self w memory_store req).1
  = (handle_ctx ratio py_str self w req (clock_handle w)
       (resolved w memory_store req)).1.
Proof.
  unfold handle, _resolve_session, resolved.
  destruct (MemoryStore.load _ _ _ _ _) as [[ctx|] store1]; simpl;
    by destruct (handle_ctx _ _ _ _ _ _ _) as [[resp|e] ctx'].
Qed.

(** After a call that returns, the store holds the context the body left,
    under that context's key. *)
Lemma handle_saves memory_store req resp :
  (handle ratio py_str self w memory_store req).1 = Ok resp ->
  let ctx' := (handle_ctx ratio py_str self w req (clock_handle w)
                 (resolved w memory_store req)).2 in
  _store (handle ratio py_str self w memory_store req).2 !! key_of ctx' = Some ctx'.
Proof.
  unfold handle, _resolve_session, resolved.
  destruct (MemoryStore.load _ _ _ _ _) as [[ctx|] store1]; simpl;
    destruct (handle_ctx _ _ _ _ _ _ _) as [[resp'|e] ctx']; simpl; try done;
    intros _; apply lookup_insert_eq.
Qed.

(** A context found by [load] is the stored object: after the call,
    returned or raised, the mapping shows under the request's key what
    the body left of it. *)
Lemma handle_writes_through memory_store req ctx :
  (MemoryStore.load memory_store (req_channel req) (req_user_id req)
     (req_session_id req) (clock_load w)).1 = Some ctx ->
  _store (handle ratio py_str self w memory_store req).2 !! request_key req
  = Some (handle_ctx ratio py_str self w req (clock_handle w) ctx).2.
Proof.
  unfold handle, _resolve_session, request_key.
  destruct (MemoryStore.load _ _ _ _ _) as [[ctx0|] store1]; simpl; [|done].
  intros [= ->].
  destruct (handle_ctx _ _ _ _ _ _ _) as [[resp'|e] ctx']; simpl.
  - destruct (decide (key_of ctx' = MemoryStore._key (req_channel req)
                        (req_user_id req) (req_session_id req))) as [E|Hne].
    + unfold key_of in E. rewrite E. apply lookup_insert_eq.
    + unfold key_of in Hne. rewrite lookup_insert_ne by done. apply lookup_insert_eq.
  - apply lookup_insert_eq.
Qed.

End AgentProps.

Section TurnProps.
Variable ratio : string -> string -> Q.
Variable py_str : pyval -> string.
Variable self : AgentCore.

Lemma run_turns_snoc turns wq ctx :
  run_turns ratio py_str self (turns ++ [wq]) ctx
  = (AgentCore.handle_ctx ratio py_str self wq.1 wq.2 (clock_handle wq.1)
       (run_turns ratio py_str self turns ctx)).2.
Proof. unfold run_turns. rewrite fold_left_app. by destruct wq. Qed.

Lemma handle_ctx_done w req ctx :
  session_done (state ctx) = true ->
  session_done (state (AgentCore.handle_ctx ratio py_str self w req
                         (clock_handle w) ctx).2) = true.
Proof.
  intros Hdone.
  destruct (handle_ctx_spec ratio py_str self w req (clock_handle w) ctx)
    as [(_ & _ & Hkeep) _].
  by apply Hkeep.
Qed.

Lemma run_turns_done turns ctx :
  session_done (state ctx) = true ->
  session_done (state (run_turns ratio py_str self turns ctx)) = true.
Proof.
  intros Hdone. induction turns as [|wq turns IH] using rev_ind; [done|].
  rewrite run_turns_snoc. by apply handle_ctx_done.
Qed.

(** C4. Once the completion flag of a session record is set, it is set
    after every further sequence of turns on that record, whatever the
    intents and whatever the ports do (returning or raising); every
    response of a later turn reports it set; and a turn that finds the
    record in the store leaves it there with the flag set. *)
Theorem done_is_a_latch (turns : list (World * OrchestratorRequest))
    (ctx : SessionContext) :
  session_done (state ctx) = true ->
  let later := run_turns ratio py_str self turns ctx in
  session_done (state later) = true
  /\ (forall w req resp,
        (AgentCore.handle_ctx ratio py_str self w req (clock_handle w) later).1
        = Ok resp ->
        resp_session_done resp = true)
  /\ (forall w memory_store req,
        (MemoryStore.load memory_store (req_channel req) (req_user_id req)
           (req_session_id req) (clock_load w)).1 = Some later ->
        exists ctx',
          _store (AgentCore.handle ratio py_str self w memory_store req).2
            !! request_key req = Some ctx'
          /\ session_done (state ctx') = true).
Proof.
  intros Hdone later.
  assert (session_done (state later) = true) as Hlater
    by by apply run_turns_done.
  split; [done|]. split.
  - intros w req resp Hresp.
    destruct (handle_ctx_spec ratio py_str self w req (clock_handle w) later)
      as [_ Hflag].
    destruct (Hflag resp Hresp) as [-> _]. by apply handle_ctx_done.
  - intros w memory_store req Hload. eexists. split.
    + by apply handle_writes_through.
    + by apply handle_ctx_done.
Qed.

Lemma handle_ctx_memory w req ctx :
  short_term (AgentCore.handle_ctx ratio py_str self w req (clock_handle w) ctx).2
  = {| history := history (short_term ctx)
                  ++ [{| role := user; text := req_text req;
                         timestamp := clock_handle w |}];
       turn_count := turn_count (short_term ctx) + 1;
       last_user_message_at := Some (clock_handle w) |}.
Proof.
  destruct (handle_ctx_spec ratio py_str self w req (clock_handle w) ctx)
    as [(_ & Hmem & _) _].
  by rewrite Hmem.
Qed.

(** C10. A call of [handle], returning or raising, appends exactly one
    message to the history of the session it works on, with role [user],
    the text of the request and the time of the call, and adds one to
    [turn_count]; when the call returns, the context so extended is the
    one the store holds. Hence, after any sequence of turns on a session
    made by [SessionContext.new], every history entry has role [user]
    and the length of the history is [turn_count], the number of turns. *)
Theorem history_holds_user_turns_only :
  (forall w memory_store req,
      let ctx := resolved w memory_store req in
      let ctx' := (AgentCore.handle_ctx ratio py_str self w req
                     (clock_handle w) ctx).2 in
      (AgentCore.handle ratio py_str self w memory_store req).1
      = (AgentCore.handle_ctx ratio py_str self w req (clock_handle w) ctx).1
      /\ history (short_term ctx')
         = history (short_term ctx)
           ++ [{| role := user; text := req_text req;
                  timestamp := clock_handle w |}]
      /\ turn_count (short_term ctx') = turn_count (short_term ctx) + 1
      /\ (forall resp,
            (AgentCore.handle ratio py_str self w memory_store req).1 = Ok resp ->
            _store (AgentCore.handle ratio py_str self w memory_store req).2
              !! key_of ctx' = Some ctx'))
  /\ (forall turns channel user_id session_id created_at,
        let ctx := run_turns ratio py_str self turns
                     (SessionContext.new channel user_id session_id created_at) in
        Forall (fun m => role m = user) (history (short_term ctx))
        /\ Z.of_nat (length (history (short_term ctx))) = turn_count (short_term ctx)
        /\ length (history (short_term ctx)) = length turns).
Proof.
  split.
  - intros w memory_store req ctx ctx'. subst ctx ctx'.
    split; [apply handle_result|]. rewrite handle_ctx_memory. simpl.
    split; [done|]. split; [done|]. intros resp Hresp.
    by apply (handle_saves ratio py_str self w memory_store req resp).
  - intros turns channel user_id session_id created_at.
    induction turns as [|[w req] turns IH] using rev_ind.
    { simpl. by repeat split. }
    cbv zeta in *. rewrite run_turns_snoc. simpl.
    rewrite handle_ctx_memory. simpl.
    destruct IH as (Hall & Hlen & Hturns).
    rewrite !length_app. simpl. repeat split.
    + apply Forall_app; split; [done|]. by constructor.
    + lia.
    + lia.
Qed.

End TurnProps.

Section DispatchProps.
Import AgentCore.
Variable ratio : string -> string -> Q.
Variable py_str : pyval -> string.
Variable self : AgentCore.
Variable w : World.

Lemma validate_items_scratch (mv : MenuValidator) ordered_items ctx ctx' :
  scratchpad (state ctx) = scratchpad (state ctx') ->
  (MenuValidator.validate_items ratio mv ordered_items ctx).1
  = (MenuValidator.validate_items ratio mv ordered_items ctx').1.
Proof. intros E. rewrite !validate_items_unfold. cbv zeta. by rewrite E. Qed.

Lemma with_default_flow_scratch ctx :
  scratchpad (state (with_default_flow ctx)) = scratchpad (state ctx).
Proof. unfold with_default_flow. by destruct (flow (state ctx)). Qed.

(** Evaluation of [_route_intent] on each of the three intents that call
    an n8n webhook. *)
Ltac route_run Hintent :=
  unfold _route_intent, with_default_flow, finish_route;
  rewrite Hintent; rewrite bind_run; unfold M.get; cbv iota beta;
  rewrite bind_run;
  match goal with |- context [flow (state ?c)] => destruct (flow (state c)) end;
  cbn [M.modify mret M_ret];
  (rewrite bind_run; repeat case_decide;
   first
     [ congruence
     | by intuition discriminate
     | rewrite bind_run; cbn [M.modify];
       match goal with
       | |- context [match ?h with (_, _) => _ end] => destruct h as [[?|?] ?]
       end; reflexivity ]).

Lemma _route_intent_get_menu req intent_data now ctx :
  intent intent_data = "get_menu" ->
  _route_intent ratio py_str self w req intent_data now ctx
  = finish_route (_handle_get_menu self w intent_data
                    (SessionContext.set_step (Some "menu") (with_default_flow ctx))).
Proof. intros Hintent. route_run Hintent. Qed.

Lemma _route_intent_phone req intent_data now ctx :
  intent intent_data = "provide_phone" ->
  _route_intent ratio py_str self w req intent_data now ctx
  = finish_route (_handle_phone py_str self w intent_data
                    (SessionContext.set_step (Some "phone") (with_default_flow ctx))).
Proof. intros Hintent. route_run Hintent. Qed.

Lemma _route_intent_order req intent_data now ctx :
  intent intent_data = "place_order" ->
  _route_intent ratio py_str self w req intent_data now ctx
  = finish_route (_handle_order ratio py_str self w intent_data
                    (SessionContext.set_step (Some "order") (with_default_flow ctx))).
Proof. intros Hintent. route_run Hintent. Qed.

(** *** A webhook exchange that raises *)

Lemma _post_raises url payload e :
  truthy (of_opt_str url) = true ->
  (forall u p, n8n_http w u p = HttpRaises e) ->
  N8NGateway._post w url payload = Raise e.
Proof. intros Hurl Hraise. unfold N8NGateway._post. by rewrite Hurl, Hraise. Qed.

Lemma _handle_get_menu_raises intent_data ctx e :
  truthy (of_opt_str (menu_url (n8n_gateway self))) = true ->
  (forall u p, n8n_http w u p = HttpRaises e) ->
  _handle_get_menu self w intent_data ctx = (Raise e, ctx).
Proof.
  intros Hurl Hraise. unfold _handle_get_menu. rewrite bind_run.
  unfold M.get. cbv iota beta. rewrite bind_run. unfold M.lift.
  unfold N8NGateway.get_menu. by rewrite (_post_raises _ _ e).
Qed.

Lemma _handle_phone_raises intent_data ctx e :
  truthy (of_opt_str (phone_url (n8n_gateway self))) = true ->
  truthy (py_or (of_opt_str (phone intent_data))
                (dict_get (scratchpad (state ctx)) "phone")) = true ->
  (forall u p, n8n_http w u p = HttpRaises e) ->
  _handle_phone py_str self w intent_data ctx = (Raise e, ctx).
Proof.
  intros Hurl Hphone Hraise. unfold _handle_phone. rewrite bind_run.
  unfold M.scratch_get, M.gets. cbv iota beta. rewrite Hphone. simpl.
  rewrite bind_run. unfold M.get. cbv iota beta. rewrite bind_run. unfold M.lift.
  unfold N8NGateway.verify_phone. by rewrite (_post_raises _ _ e).
Qed.

(** [_handle_order] up to the call of the order webhook, when every line
    is matched. *)
Lemma _handle_order_submits intent_data ctx (valid : list MenuItem) :
  (MenuValidator.validate_items ratio (menu_validator self)
     (items intent_data) ctx).1 = Ok (valid, []) ->
  exists order_payload : pydict,
    _handle_order ratio py_str self w intent_data ctx =
      match N8NGateway.place_order (n8n_gateway self) w order_payload with
      | Raise e => (Raise e, ctx)
      | Ok data =>
          (Ok (order_confirmation py_str data),
           SessionContext.set_session_done true
             (SessionContext.set_scratch "last_order_items" (VItems valid)
                (SessionContext.set_scratch "last_order_id"
                   (dict_get data "order_id") ctx)))
      end.
Proof.
  intros Hvalid. unfold _handle_order.
  rewrite bind_run. unfold M.scratch_get at 1, M.gets. cbv iota beta.
  rewrite bind_run. unfold M.scratch_get at 1, M.gets. cbv iota beta.
  rewrite bind_run.
  pose proof (validate_items_unfold ratio (menu_validator self)
                (items intent_data) ctx) as Hrun.
  destruct (MenuValidator.validate_items ratio (menu_validator self)
              (items intent_data) ctx) as [r ctx0].
  simpl in Hvalid. subst r.
  assert (ctx0 = ctx) as -> by (by inversion Hrun).
  cbv iota beta. rewrite bind_run. unfold M.get. cbv iota beta.
  match goal with
  | |- context [N8NGateway.place_order _ _ ?p] => exists p
  end.
  rewrite bind_run. unfold M.lift at 1.
  destruct (N8NGateway.place_order _ _ _) as [data|e]; [|reflexivity].
  cbv iota beta. rewrite !bind_run. cbn [M.modify M.lift].
  rewrite send_to_pos_ok. reflexivity.
Qed.

Lemma _handle_order_raises intent_data ctx (valid : list MenuItem) e :
  truthy (of_opt_str (order_url (n8n_gateway self))) = true ->
  (MenuValidator.validate_items ratio (menu_validator self)
     (items intent_data) ctx).1 = Ok (valid, []) ->
  (forall u p, n8n_http w u p = HttpRaises e) ->
  _handle_order ratio py_str self w intent_data ctx = (Raise e, ctx).
Proof.
  intros Hurl Hvalid Hraise.
  destruct (_handle_order_submits intent_data ctx valid Hvalid) as [payload ->].
  unfold N8NGateway.place_order. by rewrite (_post_raises _ _ e).
Qed.

End DispatchProps.

Section PortProps.
Import AgentCore.
Variable ratio : string -> string -> Q.
Variable py_str : pyval -> string.
Variable self : AgentCore.
Variable w : World.

(** C1, as the code has it. On a [place_order] turn in which every line
    is matched, a reply of the order webhook that lacks ["order_id"] is
    not taken for a failure: the dispatcher answers with the confirmation
    (without a reference, with the delivery time if the reply has one),
    returns the completion flag set, leaves it set in the state, and
    files [None] as the last order id and the matched entries as the last
    order items. *)
Theorem order_without_id_is_confirmed req intent_data now ctx
    (valid : list MenuItem) (data : pydict) :
  intent intent_data = "place_order" ->
  (MenuValidator.validate_items ratio (menu_validator self)
     (items intent_data) ctx).1 = Ok (valid, []) ->
  (forall payload,
      N8NGateway.place_order (n8n_gateway self) w payload = Ok data) ->
  data !! "order_id" = None ->
  let out := _route_intent ratio py_str self w req intent_data now ctx in
  out.1 = Ok (order_confirmation py_str data, true)
  /\ (data !! "eta" = None ->
      order_confirmation py_str data
      = "I’ve placed your order. Thank you for ordering! Enjoy your meal.")
  /\ session_done (state out.2) = true
  /\ scratchpad (state out.2) !! "last_order_id" = Some VNone
  /\ scratchpad (state out.2) !! "last_order_items" = Some (VItems valid).
Proof.
  intros Hintent Hvalid Hport Hid out. subst out.
  rewrite (_route_intent_order ratio py_str self w) by done.
  set (ctx1 := SessionContext.set_step (Some "order") (with_default_flow ctx)).
  assert ((MenuValidator.validate_items ratio (menu_validator self)
             (items intent_data) ctx1).1 = Ok (valid, [])) as Hvalid1.
  { rewrite <- Hvalid. apply validate_items_scratch. subst ctx1. simpl.
    apply with_default_flow_scratch. }
  destruct (_handle_order_submits ratio py_str self w intent_data ctx1 valid Hvalid1)
    as [payload ->].
  rewrite Hport. simpl.
  assert (dict_get data "order_id" = VNone) as Hnone
    by (unfold dict_get; by rewrite Hid).
  rewrite Hnone.
  split; [done|]. split.
  - intros Heta. unfold order_confirmation. rewrite Hnone.
    unfold dict_get. by rewrite Heta.
  - split; [done|]. split; [|apply lookup_insert_eq].
    rewrite lookup_insert_ne by done. apply lookup_insert_eq.
Qed.

(** C2, as the code has it. A failure that the n8n exchange raises is
    caught at no call site: on a [get_menu] turn, on a [provide_phone]
    turn with a phone at hand, and on a [place_order] turn whose lines
    are all matched, [handle] raises that very exception. What does not
    raise is what the gateways convert themselves: an unset URL and a
    body that is not JSON become a result dict in [_post], and failures
    of the POS bridge and of the analytics webhook are swallowed. *)
Theorem port_failure_raises_out_of_handle memory_store req intent_data e :
  (forall user_text recent, classify w user_text recent = Ok intent_data) ->
  (forall url payload, n8n_http w url payload = HttpRaises e) ->
  let ctx := resolved w memory_store req in
  let result := (handle ratio py_str self w memory_store req).1 in
  (intent intent_data = "get_menu" ->
   truthy (of_opt_str (menu_url (n8n_gateway self))) = true ->
   result = Raise e)
  /\ (intent intent_data = "provide_phone" ->
      truthy (of_opt_str (phone_url (n8n_gateway self))) = true ->
      truthy (py_or (of_opt_str (phone intent_data))
                    (dict_get (scratchpad (state ctx)) "phone")) = true ->
      result = Raise e)
  /\ (forall valid,
        intent intent_data = "place_order" ->
        truthy (of_opt_str (order_url (n8n_gateway self))) = true ->
        (MenuValidator.validate_items ratio (menu_validator self)
           (items intent_data) ctx).1 = Ok (valid, []) ->
        result = Raise e)
  /\ (forall w' url payload,
        truthy (of_opt_str url) = false ->
        N8NGateway._post w' url payload
        = Ok {[ "error" := VStr "url_not_configured" ]})
  /\ (forall w' url payload raw,
        truthy (of_opt_str url) = true ->
        n8n_http w' (default "" url) payload = HttpText raw ->
        N8NGateway._post w' url payload = Ok {[ "raw" := VStr raw ]})
  /\ (forall w', POSGateway.send_to_pos (pos_gateway self) w' = Ok tt
                 /\ AnalyticsGateway.send_analytics (analytics_gateway self) w'
                    = Ok tt).
Proof.
  intros Hclassify Hraise ctx result. subst result.
  rewrite handle_result, handle_ctx_unfold. fold ctx. cbv zeta.
  rewrite Hclassify.
  set (ctx1 := SessionContext.append_user_message (req_text req) (clock_handle w) ctx).
  assert (scratchpad (state (with_default_flow ctx1)) = scratchpad (state ctx)) as Hscr
    by (by rewrite with_default_flow_scratch).
  split; [|split; [|split]].
  - intros Hintent Hurl.
    rewrite (_route_intent_get_menu ratio py_str self w) by done.
    by rewrite (_handle_get_menu_raises self w _ _ e).
  - intros Hintent Hurl Hphone.
    rewrite (_route_intent_phone ratio py_str self w) by done.
    rewrite (_handle_phone_raises py_str self w _ _ e); [done..| |done].
    simpl. by rewrite Hscr.
  - intros valid Hintent Hurl Hvalid.
    rewrite (_route_intent_order ratio py_str self w) by done.
    rewrite (_handle_order_raises ratio py_str self w _ _ valid e); [done..| |done].
    rewrite <- Hvalid. apply validate_items_scratch. simpl. by rewrite Hscr.
  - split; [|split].
    + intros w' url payload Hurl. unfold N8NGateway._post. by rewrite Hurl.
    + intros w' url payload raw Hurl Hbody. unfold N8NGateway._post.
      by rewrite Hurl, Hbody.
    + intros w'. split; [apply send_to_pos_ok | apply send_analytics_ok].
Qed.

End PortProps.

(** *** Worked scenarios of the dispatcher *)

(** [get_menu] when the webhook has no menu to give: the reply invites a
    direct order and nothing is cached under ["menu_items"]. *)
Example scenario_menu_unavailable :
  let w := Scenario.world (Scenario.intent_of "get_menu" []) (HttpJson ∅) in
  let out := AgentCore.handle Difflib.ratio str_of_scalar Scenario.core w
               Scenario.empty_store (Scenario.request "what is on the menu?") in
  exists resp ctx',
    out.1 = Ok resp
    /\ reply_text resp = AgentCore.reply_menu_unavailable
    /\ resp_session_done resp = false
    /\ _store out.2 !! request_key (Scenario.request "what is on the menu?") = Some ctx'
    /\ scratchpad (state ctx') !! "menu_items" = None
    /\ step (state ctx') = Some "menu"
    /\ flow (state ctx') = Some "food_order".
Proof. vm_compute. eexists _, _. repeat split. Qed.

(** [place_order] with every line matched and an order id returned. *)
Example scenario_order_placed :
  let data : pydict := {[ "order_id" := VStr "A17"; "eta" := VStr "20 minutes" ]} in
  let w := Scenario.world (Scenario.intent_of "place_order" ["cheese burger"; "fries"])
                          (HttpJson data) in
  let out := AgentCore.handle Difflib.ratio str_of_scalar Scenario.core w
               Scenario.store_with_menu (Scenario.request "a cheese burger and fries") in
  exists resp,
    out.1 = Ok resp
    /\ reply_text resp
       = "I’ve placed your order with reference ID A17. Estimated delivery time is 20 minutes. Thank you for ordering! Enjoy your meal."
    /\ resp_session_done resp = true
    /\ snap_scratchpad (memory_snapshot resp) !! "last_order_id" = Some (VStr "A17")
    /\ snap_scratchpad (memory_snapshot resp) !! "last_order_items"
       = Some (VItems [Scenario.cheeseburger; Scenario.fries])
    /\ snap_turn_count (memory_snapshot resp) = 1.
Proof. vm_compute. eexists. repeat split. Qed.

(** The order theorem on the session with the specification's menu; the
    webhook answers with an empty object. *)
Lemma order_without_id_scenario :
  let w := Scenario.world (Scenario.intent_of "place_order" ["fries"]) (HttpJson ∅) in
  let out := AgentCore._route_intent Difflib.ratio str_of_scalar Scenario.core w
               (Scenario.request "fries please")
               (Scenario.intent_of "place_order" ["fries"]) 1000
               (Scenario.with_menu Scenario.menu) in
  out.1 = Ok (order_confirmation str_of_scalar ∅, true)
  /\ ((∅ : pydict) !! "eta" = None ->
      order_confirmation str_of_scalar ∅
      = "I’ve placed your order. Thank you for ordering! Enjoy your meal.")
  /\ session_done (state out.2) = true
  /\ scratchpad (state out.2) !! "last_order_id" = Some VNone
  /\ scratchpad (state out.2) !! "last_order_items" = Some (VItems [Scenario.fries]).
Proof.
  apply (order_without_id_is_confirmed Difflib.ratio str_of_scalar Scenario.core
           (Scenario.world (Scenario.intent_of "place_order" ["fries"]) (HttpJson ∅))
           (Scenario.request "fries please")
           (Scenario.intent_of "place_order" ["fries"]) 1000
           (Scenario.with_menu Scenario.menu) [Scenario.fries] ∅).
  - reflexivity.
  - vm_compute. reflexivity.
  - intros payload. reflexivity.
  - reflexivity.
Defined.

(** C1 as stated fails: the line ["fries"] matches the cached menu, the
    order webhook answers with an object that has no ["order_id"], and
    the response is the confirmation with the completion flag set, which
    the stored session carries too. *)
Lemma order_without_id_sets_done :
  let w := Scenario.world (Scenario.intent_of "place_order" ["fries"]) (HttpJson ∅) in
  let out := AgentCore.handle Difflib.ratio str_of_scalar Scenario.core w
               Scenario.store_with_menu (Scenario.request "fries please") in
  (MenuValidator.validate_items Difflib.ratio MenuValidator.init_default ["fries"]
     (Scenario.with_menu Scenario.menu)).1 = Ok ([Scenario.fries], [])
  /\ (∅ : pydict) !! "order_id" = None
  /\ exists resp ctx',
       out.1 = Ok resp
       /\ reply_text resp
          = "I’ve placed your order. Thank you for ordering! Enjoy your meal."
       /\ resp_session_done resp = true
       /\ _store out.2 !! request_key (Scenario.request "fries please") = Some ctx'
       /\ session_done (state ctx') = true.
Proof.
  vm_compute. split; [reflexivity|]. split; [reflexivity|].
  eexists _, _. repeat split.
Qed.

(** The propagation theorem on a [place_order] turn whose webhook
    answers with an error status. *)
Lemma order_port_failure_scenario :
  let w := Scenario.world (Scenario.intent_of "place_order" ["fries"])
                          (HttpRaises HTTPStatusError) in
  (AgentCore.handle Difflib.ratio str_of_scalar Scenario.core w
     Scenario.store_with_menu (Scenario.request "fries please")).1
  = Raise HTTPStatusError.
Proof.
  refine (proj1 (proj2 (proj2
    (port_failure_raises_out_of_handle Difflib.ratio str_of_scalar Scenario.core
       (Scenario.world (Scenario.intent_of "place_order" ["fries"])
                       (HttpRaises HTTPStatusError))
       Scenario.store_with_menu (Scenario.request "fries please")
       (Scenario.intent_of "place_order" ["fries"]) HTTPStatusError
       (fun _ _ => eq_refl) (fun _ _ => eq_refl))))
    [Scenario.fries] eq_refl eq_refl _).
  vm_compute. reflexivity.
Defined.

(** C2 as stated fails: the menu webhook times out on the first turn of
    a session and [handle] raises instead of returning a response; the
    store holds no session afterwards. *)
Lemma menu_port_failure_raises :
  let w := Scenario.world (Scenario.intent_of "get_menu" [])
                          (HttpRaises TransportError) in
  let out := AgentCore.handle Difflib.ratio str_of_scalar Scenario.core w
               Scenario.empty_store (Scenario.request "what is on the menu?") in
  out.1 = Raise TransportError
  /\ is_ok out.1 = false
  /\ _store out.2 !! request_key (Scenario.request "what is on the menu?") = None.
Proof. vm_compute. repeat split. Qed.

(** The latch theorem on a completed session that goes through a menu
    turn whose webhook fails and a further order turn. *)
Lemma done_latch_scenario :
  let turns :=
    [(Scenario.world (Scenario.intent_of "get_menu" []) (HttpRaises TransportError),
      Scenario.request "menu again");
     (Scenario.world (Scenario.intent_of "place_order" ["pizza"]) (HttpJson ∅),
      Scenario.request "a pizza")] in
  session_done (state Scenario.completed) = true
  /\ session_done
       (state (run_turns Difflib.ratio str_of_scalar Scenario.core turns
                 Scenario.completed)) = true.
Proof.
  cbv zeta. split; [reflexivity|].
  exact (proj1 (done_is_a_latch Difflib.ratio str_of_scalar Scenario.core
                  [(Scenario.world (Scenario.intent_of "get_menu" [])
                                   (HttpRaises TransportError),
                    Scenario.request "menu again");
                   (Scenario.world (Scenario.intent_of "place_order" ["pizza"])
                                   (HttpJson ∅),
                    Scenario.request "a pizza")]
                  Scenario.completed eq_refl)).
Defined.

(** * Further properties *)

(** ** SessionStore: sweep and lazy eviction *)

Section SweepProps.
Implicit Types (store : MemoryStore) (ctx : SessionContext) (now : datetime).

Lemma lookup_foldr_delete_decide {A} (m : gmap SessionKey A) (js : list SessionKey) j :
  foldr delete m js !! j = if decide (j ∈ js) then None else m !! j.
Proof.
  case_decide; [by apply lookup_foldr_delete
               | by apply lookup_foldr_delete_not_elem_of].
Qed.

Lemma purge_expired_lookup store now (k : SessionKey) :
  _store (MemoryStore.purge_expired store now) !! k
  = (ctx ← _store store !! k; if expired store now ctx then None else Some ctx).
Proof.
  unfold MemoryStore.purge_expired. simpl.
  rewrite lookup_foldr_delete_decide. case_decide as Hin.
  - apply list_elem_of_omap in Hin as ([k' ctx] & Hkv & Hsel).
    apply elem_of_map_to_list in Hkv. fold (expired store now ctx) in Hsel.
    destruct (expired store now ctx) eqn:E; [|done].
    injection Hsel as ->. rewrite Hkv. simpl. by rewrite E.
  - destruct (_store store !! k) as [ctx|] eqn:Hk; [|done]. simpl.
    destruct (expired store now ctx) eqn:E; [|done].
    destruct Hin. apply list_elem_of_omap. exists (k, ctx).
    split; [by apply elem_of_map_to_list|].
    fold (expired store now ctx). by rewrite E.
Qed.

(** X1. After [purge_expired] a key holds what it held before if that
    record is not expired at the sweep's clock, and nothing otherwise;
    the TTL of the store is unchanged. *)
Theorem purge_expired_keeps_live_only store now (k : SessionKey) :
  _store (MemoryStore.purge_expired store now) !! k
  = (ctx ← _store store !! k; if expired store now ctx then None else Some ctx)
  /\ ttl (MemoryStore.purge_expired store now) = ttl store.
Proof. split; [apply purge_expired_lookup | done]. Qed.

Lemma load_some_inv store (k : SessionKey) now ctx :
  (load_key store k now).1 = Some ctx ->
  _store store !! k = Some ctx /\ expired store now ctx = false
  /\ (load_key store k now).2 = store.
Proof.
  destruct k as [[c u] s].
  unfold load_key, MemoryStore.load, MemoryStore._key, expired. simpl.
  destruct (_store store !! (c, u, s)) as [ctx0|] eqn:Hk; simpl; [|done].
  destruct (now - last_seen_at (session ctx0) >? ttl store) eqn:E; simpl; [done|].
  intros [= <-]. by rewrite E.
Qed.

(** X2. [load] gives back only what the store holds under the key and
    only while it is not expired, and then leaves the store as it is; in
    every case it leaves the other keys and the TTL alone, and never adds
    a record. *)
Theorem load_returns_live_stored_only store (k k' : SessionKey) now :
  let out := load_key store k now in
  (forall ctx, out.1 = Some ctx ->
     _store store !! k = Some ctx /\ expired store now ctx = false /\ out.2 = store)
  /\ (out.1 = None -> _store out.2 !! k = None)
  /\ (k' <> k -> _store out.2 !! k' = _store store !! k')
  /\ ttl out.2 = ttl store.
Proof.
  destruct k as [[c u] s]. cbv zeta.
  unfold load_key, MemoryStore.load, MemoryStore._key, expired. simpl.
  destruct (_store store !! (c, u, s)) as [ctx|] eqn:Hk; simpl.
  - destruct (now - last_seen_at (session ctx) >? ttl store) eqn:E; simpl.
    + split; [done|]. split; [intros _; apply lookup_delete_eq|].
      split; [|done]. intros Hne. by apply lookup_delete_ne.
    + split; [|done]. intros ctx0 [= <-]. by rewrite E.
  - by repeat split.
Qed.

(** X3. Sweeping first changes nothing to what a load at the same clock
    returns: lazy eviction and the sweep agree on every key. *)
Theorem load_after_purge_agrees store (k : SessionKey) now :
  (load_key (MemoryStore.purge_expired store now) k now).1
  = (load_key store k now).1.
Proof.
  destruct k as [[c u] s].
  unfold load_key, MemoryStore.load, MemoryStore._key.
  cbn [fst snd]. rewrite purge_expired_lookup.
  change (ttl (MemoryStore.purge_expired store now)) with (ttl store).
  destruct (_store store !! (c, u, s)) as [ctx|]; simpl; [|done].
  unfold expired.
  destruct (now - last_seen_at (session ctx) >? ttl store) eqn:E; simpl; [done|].
  by rewrite E.
Qed.

End SweepProps.

(** ** SessionRecord: messages and counters *)

Lemma apply_ops_snoc ops op ctx :
  apply_ops (ops ++ [op]) ctx = apply_op (apply_ops ops ctx) op.
Proof. unfold apply_ops. by rewrite fold_left_app. Qed.

(** X4. On a session made by [SessionContext.new], after any sequence
    of [append_user_message] and [append_assistant_message] calls the
    history lists the messages in call order, [turn_count] is the number
    of history entries with role [user], [last_seen_at] is the time of
    the last message (the creation time when there is none), the state
    is still the initial one and the identity of the session is
    unchanged. *)
Theorem turn_count_counts_user_messages (ops : list SessionOp)
    (channel0 user_id0 session_id0 : string) (created : datetime) :
  let ctx := apply_ops ops
               (SessionContext.new channel0 user_id0 session_id0 created) in
  history (short_term ctx) = op_message <$> ops
  /\ turn_count (short_term ctx)
     = Z.of_nat (length (List.filter is_user (history (short_term ctx))))
  /\ last_seen_at (session ctx)
     = default created (timestamp <$> last (history (short_term ctx)))
  /\ state ctx = state (SessionContext.new channel0 user_id0 session_id0 created)
  /\ key_of ctx = (channel0, user_id0, session_id0)
  /\ created_at (session ctx) = created.
Proof.
  induction ops as [|op ops IH] using rev_ind.
  { by repeat split. }
  cbv zeta in *. rewrite apply_ops_snoc.
  destruct IH as (Hhist & Hcount & Hseen & Hstate & Hkey & Hcreated).
  set (ctx := apply_ops ops _) in *.
  rewrite fmap_app. simpl.
  destruct op as [said at_time|said at_time]; simpl;
    rewrite Hhist, ?List.filter_app, ?length_app, ?last_snoc; simpl.
  all: rewrite ?Hcount, ?Hhist.
  all: repeat split; try done; try lia.
Qed.

(** ** MenuMatcher: the loop over the lines *)

Section LinesProps.
Import MenuValidator.
Variable ratio : string -> string -> Q.
Implicit Types (self : MenuValidator) (menu : list MenuItem)
  (ctx : SessionContext) (lines : list string).

(** What one line adds to the two lists, whatever they hold already. *)
Lemma validate_line_outcome self menu raw :
  exists v u,
    (forall acc,
        validate_line ratio self (build_lookup menu).1 (build_lookup menu).2 acc raw
        = Ok (acc.1 ++ v, acc.2 ++ u))
    /\ Forall (fun m => m ∈ menu) v
    /\ ((non_blank raw = false /\ v = [] /\ u = [])
        \/ (non_blank raw = true
            /\ ((length v = 1%nat /\ u = []) \/ (v = [] /\ u = [PyStr.strip raw])))).
Proof.
  unfold non_blank. destruct (PyStr.truthy (PyStr.strip raw)) eqn:Hblank.
  - apply truthy_nonempty in Hblank.
    pose proof (build_lookup_lookup menu (PyStr.lower (PyStr.strip raw))) as Hl.
    destruct ((build_lookup menu).1 !! PyStr.lower (PyStr.strip raw)) as [m|] eqn:Ex.
    { exists [m], []. split; [|split].
      - intros acc. rewrite (validate_line_exact ratio self _ _ acc raw m) by done.
        by rewrite app_nil_r.
      - constructor; [|done]. by destruct (last_under_elem _ _ _ Hl).
      - right. split; [done|]. by left. }
    pose proof (fuzzy_best_inv ratio (PyStr.lower (PyStr.strip raw))
                  (build_lookup menu).2) as Hinv.
    destruct (fuzzy_best ratio (PyStr.lower (PyStr.strip raw)) (build_lookup menu).2)
      as [best_match best_ratio] eqn:Ebest.
    destruct (truthy (of_opt_str best_match)
              && Qgeb best_ratio (fuzzy_threshold self)) eqn:Hcond.
    + destruct best_match as [n|]; [|done]. simpl in Hinv.
      destruct Hinv as (pre & post & Hnames & _).
      assert (n ∈ (build_lookup menu).2) as Hn
        by (rewrite Hnames; apply elem_of_app; right; constructor).
      destruct (names_in_lookup menu n Hn) as [m Hm].
      pose proof (build_lookup_lookup menu n) as Hln. rewrite Hm in Hln.
      exists [m], []. split; [|split].
      * intros acc. rewrite validate_line_fuzzy by done. cbv zeta.
        rewrite Ebest. simpl fst. simpl snd. rewrite Hcond. simpl.
        by rewrite Hm, app_nil_r.
      * constructor; [|done]. by destruct (last_under_elem _ _ _ Hln).
      * right. split; [done|]. by left.
    + exists [], [PyStr.strip raw]. split; [|split].
      * intros acc. rewrite validate_line_fuzzy by done. cbv zeta.
        rewrite Ebest. simpl fst. simpl snd. rewrite Hcond.
        by rewrite app_nil_r.
      * constructor.
      * right. split; [done|]. by right.
  - exists [], []. split; [|split].
    + intros acc. rewrite validate_line_blank.
      * destruct acc. simpl. by rewrite !app_nil_r.
      * by destruct (PyStr.strip raw).
    + constructor.
    + by left.
Qed.

Lemma validate_line_acc self menu acc raw :
  validate_line ratio self (build_lookup menu).1 (build_lookup menu).2 acc raw
  = Ok (acc.1 ++ (line_result ratio self menu raw).1,
        acc.2 ++ (line_result ratio self menu raw).2).
Proof.
  destruct (validate_line_outcome self menu raw) as (v & u & Hrun & _).
  unfold line_result. rewrite (Hrun ([], [])). simpl. apply Hrun.
Qed.

Lemma line_result_cases self menu raw :
  Forall (fun m => m ∈ menu) (line_result ratio self menu raw).1
  /\ ((non_blank raw = false /\ line_result ratio self menu raw = ([], []))
      \/ (non_blank raw = true
          /\ ((length (line_result ratio self menu raw).1 = 1%nat
               /\ (line_result ratio self menu raw).2 = [])
              \/ line_result ratio self menu raw = ([], [PyStr.strip raw])))).
Proof.
  destruct (validate_line_outcome self menu raw) as (v & u & Hrun & Hin & Hcase).
  unfold line_result. rewrite (Hrun ([], [])). simpl. split; [done|].
  destruct Hcase as [(? & -> & ->)|(? & [(? & ->)|(-> & ->)])]; auto.
Qed.

(** The loop as a whole: the lines are decided one by one and their
    results appended in order. *)
Lemma validate_lines_run self menu lines acc :
  res_foldl (validate_line ratio self (build_lookup menu).1 (build_lookup menu).2)
            lines acc
  = Ok (acc.1 ++ concat ((fun raw => (line_result ratio self menu raw).1) <$> lines),
        acc.2 ++ concat ((fun raw => (line_result ratio self menu raw).2) <$> lines)).
Proof.
  revert acc. induction lines as [|raw lines IH]; intros acc.
  { destruct acc. simpl. by rewrite !app_nil_r. }
  simpl. rewrite validate_line_acc. simpl. rewrite IH. simpl.
  by rewrite <- !app_assoc.
Qed.

Lemma validate_items_list self lines ctx menu :
  scratchpad (state ctx) !! "menu_items" = Some (VItems menu) ->
  menu <> [] ->
  validate_items ratio self lines ctx
  = (Ok (concat ((fun raw => (line_result ratio self menu raw).1) <$> lines),
         concat ((fun raw => (line_result ratio self menu raw).2) <$> lines)),
     ctx).
Proof.
  intros Hm Hne. rewrite (validate_items_menu ratio self lines ctx menu) by done.
  by rewrite validate_lines_run.
Qed.

End LinesProps.

Section MatcherExtras.
Import MenuValidator.
Variable ratio : string -> string -> Q.
Implicit Types (self : MenuValidator) (menu : list MenuItem)
  (ctx : SessionContext) (lines : list string).

Lemma line_results_sorted self menu lines :
  Forall (fun m => m ∈ menu)
    (concat ((fun raw => (line_result ratio self menu raw).1) <$> lines))
  /\ concat ((fun raw => (line_result ratio self menu raw).2) <$> lines)
     `sublist_of` (PyStr.strip <$> List.filter non_blank lines)
  /\ (length (concat ((fun raw => (line_result ratio self menu raw).1) <$> lines))
      + length (concat ((fun raw => (line_result ratio self menu raw).2) <$> lines))
      = length (List.filter non_blank lines))%nat.
Proof.
  induction lines as [|raw lines (IHin & IHsub & IHlen)]; [by repeat split|].
  destruct (line_result_cases ratio self menu raw) as [Hin Hcase].
  rewrite !fmap_cons. cbn [concat List.filter]. rewrite !length_app.
  destruct Hcase as [[Hb Hr]|[Hb [[Hone Hu]|Hr]]]; rewrite Hb.
  - rewrite Hr. cbn [fst snd app length]. by repeat split.
  - rewrite Hone, Hu, fmap_cons. cbn [app length].
    split; [by apply Forall_app|]. split; [by apply sublist_cons|]. lia.
  - rewrite Hr, fmap_cons. cbn [fst snd app length].
    split; [done|]. split; [by apply sublist_skip|]. lia.
Qed.

(** X5. Against a cached menu that is a non-empty list, [validate_items]
    always returns (the lookup by the best name cannot miss): every
    matched entry is an entry of the menu, the unmatched strings are
    stripped non-blank input lines in input order, and each non-blank
    line lands in exactly one of the two lists. *)
Theorem validate_items_sorts_every_line self lines ctx menu :
  scratchpad (state ctx) !! "menu_items" = Some (VItems menu) ->
  menu <> [] ->
  exists valid unknown,
    validate_items ratio self lines ctx = (Ok (valid, unknown), ctx)
    /\ Forall (fun m => m ∈ menu) valid
    /\ unknown `sublist_of` (PyStr.strip <$> List.filter non_blank lines)
    /\ (length valid + length unknown = length (List.filter non_blank lines))%nat.
Proof.
  intros Hm Hne. eexists _, _.
  split; [by apply validate_items_list|]. apply line_results_sorted.
Qed.

(** X6. The lines are decided independently of one another: the result
    for a concatenation of two lists of lines is the concatenation of
    their results, in both output lists, whether the cached list is
    empty or not. *)
Theorem validate_items_app self (lines1 lines2 : list string) ctx menu :
  scratchpad (state ctx) !! "menu_items" = Some (VItems menu) ->
  exists valid1 unknown1 valid2 unknown2,
    validate_items ratio self lines1 ctx = (Ok (valid1, unknown1), ctx)
    /\ validate_items ratio self lines2 ctx = (Ok (valid2, unknown2), ctx)
    /\ validate_items ratio self (lines1 ++ lines2) ctx
       = (Ok (valid1 ++ valid2, unknown1 ++ unknown2), ctx).
Proof.
  intros Hm. destruct (decide (menu = [])) as [->|Hne].
  - exists [], lines1, [], lines2.
    rewrite !validate_items_no_menu; [done|..]; unfold dict_get; by rewrite Hm.
  - eexists _, _, _, _. rewrite !(validate_items_list ratio self _ ctx menu) by done.
    split; [done|]. split; [done|]. by rewrite !fmap_app, !concat_app.
Qed.

(** X7. Against a non-empty cached list, lines that are empty or white
    space only are skipped: dropping them from the input changes
    nothing to the result. *)
Theorem blank_lines_are_skipped self lines ctx menu :
  scratchpad (state ctx) !! "menu_items" = Some (VItems menu) ->
  menu <> [] ->
  validate_items ratio self lines ctx
  = validate_items ratio self (List.filter non_blank lines) ctx.
Proof.
  intros Hm Hne. rewrite !(validate_items_list ratio self _ ctx menu) by done.
  do 2 f_equal. f_equal.
  - induction lines as [|raw lines IH]; [done|].
    rewrite fmap_cons. cbn [concat List.filter].
    destruct (line_result_cases ratio self menu raw) as [_ [[Hb Hr]|[Hb _]]];
      rewrite Hb; [by rewrite Hr | rewrite fmap_cons; cbn [concat]; by rewrite IH].
  - induction lines as [|raw lines IH]; [done|].
    rewrite fmap_cons. cbn [concat List.filter].
    destruct (line_result_cases ratio self menu raw) as [_ [[Hb Hr]|[Hb _]]];
      rewrite Hb; [by rewrite Hr | rewrite fmap_cons; cbn [concat]; by rewrite IH].
Qed.

Lemma build_lookup_blank_names menu :
  Forall (fun m => item_name m = "") menu -> build_lookup menu = (∅, []).
Proof.
  induction menu as [|m menu IH] using rev_ind; [done|].
  intros [Hmenu Hm]%Forall_app. rewrite build_lookup_snoc, IH by done.
  apply Forall_inv in Hm. unfold add_name. by rewrite Hm.
Qed.

(** X8. A cached menu that is not empty but whose entries all have a
    blank name matches nothing: every non-blank line comes back in the
    unmatched list, stripped, in input order. *)
Theorem nameless_menu_matches_nothing self lines ctx menu :
  scratchpad (state ctx) !! "menu_items" = Some (VItems menu) ->
  menu <> [] ->
  Forall (fun m => item_name m = "") menu ->
  validate_items ratio self lines ctx
  = (Ok ([], List.filter PyStr.truthy (PyStr.strip <$> lines)), ctx).
Proof.
  intros Hm Hne Hblank. rewrite (validate_items_list ratio self _ ctx menu) by done.
  assert (forall raw, line_result ratio self menu raw
                      = ([], if non_blank raw then [PyStr.strip raw] else [])) as Hres.
  { intros raw. unfold line_result, validate_line, non_blank.
    rewrite (build_lookup_blank_names menu Hblank). simpl.
    destruct (PyStr.truthy (PyStr.strip raw)); [|done]. simpl.
    by rewrite lookup_empty. }
  do 2 f_equal. f_equal.
  - induction lines as [|raw lines IH]; [done|].
    rewrite fmap_cons. cbn [concat]. by rewrite Hres, IH.
  - induction lines as [|raw lines IH]; [done|].
    rewrite !fmap_cons. cbn [concat List.filter]. rewrite Hres, IH.
    unfold non_blank. by destruct (PyStr.truthy (PyStr.strip raw)).
Qed.

Lemma lower_truthy (s : string) : PyStr.truthy (PyStr.lower s) = PyStr.truthy s.
Proof. by destruct s. Qed.

(** X9. Matching looks at a line through its stripped, lower-cased form
    only: two lines that agree on it are matched to the same entry or
    are both left unmatched (each under its own stripped spelling). *)
Theorem matching_ignores_case_and_margins self (line1 line2 : string) ctx menu :
  scratchpad (state ctx) !! "menu_items" = Some (VItems menu) ->
  menu <> [] ->
  PyStr.lower (PyStr.strip line1) = PyStr.lower (PyStr.strip line2) ->
  exists valid (unmatched : bool),
    validate_items ratio self [line1] ctx
    = (Ok (valid, if unmatched then [PyStr.strip line1] else []), ctx)
    /\ validate_items ratio self [line2] ctx
       = (Ok (valid, if unmatched then [PyStr.strip line2] else []), ctx).
Proof.
  intros Hm Hne Heq. rewrite !(validate_items_list ratio self _ ctx menu) by done.
  simpl. rewrite !app_nil_r.
  assert (PyStr.truthy (PyStr.strip line1) = PyStr.truthy (PyStr.strip line2)) as Ht
    by (by rewrite <- (lower_truthy (PyStr.strip line1)), Heq, lower_truthy).
  unfold line_result, validate_line. rewrite <- Heq, <- Ht.
  destruct (PyStr.truthy (PyStr.strip line1)); simpl; [|by exists [], false].
  destruct (_ !! PyStr.lower (PyStr.strip line1)) as [m|]; [by exists [m], false|].
  destruct (fuzzy_best _ _ _) as [best_match best_ratio].
  destruct (truthy (of_opt_str best_match) && _); [|by exists [], true].
  destruct (_ !! default "" best_match) as [m|]; [by exists [m], false|].
  by exists [], false.
Qed.

End MatcherExtras.

(** ** StepDispatcher: labels, scratchpad keys, completion flag *)

#[local] Instance labels_and_keys_kept_preorder : PreOrder labels_and_keys_kept.
Proof.
  split.
  - intros ctx. by repeat split.
  - intros c1 c2 c3 (Hf1 & Hs1 & Hk1) (Hf2 & Hs2 & Hk2).
    repeat split; [congruence | congruence | auto].
Qed.

#[local] Instance done_unchanged_preorder : PreOrder done_unchanged.
Proof.
  split; [by intros ctx|]. intros c1 c2 c3 H1 H2. unfold done_unchanged in *.
  congruence.
Qed.

Lemma kept_set_scratch k v ctx :
  labels_and_keys_kept ctx (SessionContext.set_scratch k v ctx).
Proof.
  repeat split. intros k' Hk'. simpl.
  destruct (decide (k = k')) as [->|Hne];
    [rewrite lookup_insert_eq; by eexists | by rewrite lookup_insert_ne].
Qed.

Lemma kept_set_done b ctx :
  labels_and_keys_kept ctx (SessionContext.set_session_done b ctx).
Proof. by repeat split. Qed.

Lemma unchanged_set_scratch k v ctx :
  done_unchanged ctx (SessionContext.set_scratch k v ctx).
Proof. done. Qed.

Lemma unchanged_set_step v ctx :
  done_unchanged ctx (SessionContext.set_step v ctx).
Proof. done. Qed.

Lemma unchanged_set_flow v ctx :
  done_unchanged ctx (SessionContext.set_flow v ctx).
Proof. done. Qed.

#[local] Hint Resolve kept_set_scratch kept_set_done unchanged_set_scratch
  unchanged_set_step unchanged_set_flow : frame.

Section LabelProps.
Import AgentCore.
Variable ratio : string -> string -> Q.
Variable py_str : pyval -> string.
Variable self : AgentCore.
Variable w : World.

Lemma handlers_keep_labels intent_data :
  preserves labels_and_keys_kept (_handle_get_menu self w intent_data)
  /\ preserves labels_and_keys_kept (_handle_phone py_str self w intent_data)
  /\ preserves labels_and_keys_kept (_handle_address py_str intent_data)
  /\ preserves labels_and_keys_kept (_handle_order ratio py_str self w intent_data).
Proof.
  split; [|split; [|split]].
  - unfold _handle_get_menu. frame.
  - unfold _handle_phone. frame.
  - unfold _handle_address. frame.
  - unfold _handle_order.
    do 2 (apply preserves_bind; [frame | intros ?]).
    apply preserves_bind;
      [apply (validate_items_preserves ratio labels_and_keys_kept) | intros ?].
    frame.
Qed.

Lemma handlers_keep_done intent_data :
  preserves done_unchanged (_handle_get_menu self w intent_data)
  /\ preserves done_unchanged (_handle_phone py_str self w intent_data)
  /\ preserves done_unchanged (_handle_address py_str intent_data).
Proof.
  split; [|split].
  - unfold _handle_get_menu. frame.
  - unfold _handle_phone. frame.
  - unfold _handle_address. frame.
Qed.

(** [_route_intent], intent by intent. *)
Lemma _route_intent_cases req intent_data now ctx :
  let ctx1 := labelled (intent intent_data) ctx in
  _route_intent ratio py_str self w req intent_data now ctx =
    if decide (intent intent_data = "get_menu") then
      finish_route (_handle_get_menu self w intent_data ctx1)
    else if decide (intent intent_data = "provide_phone") then
      finish_route (_handle_phone py_str self w intent_data ctx1)
    else if decide (intent intent_data = "provide_address") then
      finish_route (_handle_address py_str intent_data ctx1)
    else if decide (intent intent_data = "place_order") then
      finish_route (_handle_order ratio py_str self w intent_data ctx1)
    else if decide (intent intent_data = "chitchat" \/ intent intent_data = "unknown")
    then (Ok (reply_fallback, session_done (state ctx1)), ctx1)
    else (Ok (reply_unknown, session_done (state ctx1)), ctx1).
Proof.
  cbv zeta. unfold labelled, step_of_intent, _route_intent, with_default_flow,
    finish_route.
  rewrite bind_run. unfold M.get. cbv iota beta. rewrite bind_run.
  destruct (flow (state ctx)); cbn [M.modify mret M_ret];
    rewrite bind_run; repeat case_decide;
    rewrite bind_run; cbn [M.modify mret M_ret];
    try reflexivity;
    match goal with
    | |- context [match ?h with (_, _) => _ end] => destruct h as [[?|?] ?]
    end; reflexivity.
Qed.

Lemma finish_route_state (out : Res string * SessionContext) :
  (finish_route out).2 = out.2.
Proof. by destruct out as [[?|?] ?]. Qed.

Lemma labelled_labels name ctx :
  flow (state (labelled name ctx)) = Some (default "food_order" (flow (state ctx)))
  /\ step (state (labelled name ctx)) = Some (step_of_intent name)
  /\ scratchpad (state (labelled name ctx)) = scratchpad (state ctx)
  /\ session_done (state (labelled name ctx)) = session_done (state ctx).
Proof.
  unfold labelled, with_default_flow.
  destruct (flow (state ctx)) eqn:E; simpl; rewrite ?E; by repeat split.
Qed.

Lemma _route_intent_labels req intent_data now ctx :
  labels_and_keys_kept (labelled (intent intent_data) ctx)
    (_route_intent ratio py_str self w req intent_data now ctx).2.
Proof.
  rewrite _route_intent_cases. cbv zeta.
  destruct (handlers_keep_labels intent_data) as (Hm & Hp & Ha & Ho).
  repeat case_decide; rewrite ?finish_route_state;
    first [apply Hm | apply Hp | apply Ha | apply Ho | reflexivity].
Qed.

(** X10. Whatever the intent and whatever the webhooks do, the state
    [_route_intent] leaves (returning or raising) has its flow set, to
    the flow it had or to ["food_order"] if it had none, has the step
    label of the intent, and has lost no scratchpad key. *)
Theorem route_sets_flow_and_step req intent_data now ctx :
  let out := _route_intent ratio py_str self w req intent_data now ctx in
  flow (state out.2) = Some (default "food_order" (flow (state ctx)))
  /\ step (state out.2) = Some (step_of_intent (intent intent_data))
  /\ forall k, is_Some (scratchpad (state ctx) !! k) ->
               is_Some (scratchpad (state out.2) !! k).
Proof.
  cbv zeta.
  destruct (_route_intent_labels req intent_data now ctx) as (Hf & Hs & Hk).
  destruct (labelled_labels (intent intent_data) ctx) as (Hf0 & Hs0 & Hsc & _).
  rewrite Hf, Hs, Hf0, Hs0. repeat split.
  intros k Hsome. apply Hk. by rewrite Hsc.
Qed.

(** X11. Only an order can set the completion flag: on a turn whose
    intent is not ["place_order"], the flag of the state is after
    [_route_intent] what it was before, and the flag returned is that
    value. *)
Theorem only_an_order_sets_done req intent_data now ctx :
  intent intent_data <> "place_order" ->
  let out := _route_intent ratio py_str self w req intent_data now ctx in
  session_done (state out.2) = session_done (state ctx)
  /\ forall reply d, out.1 = Ok (reply, d) -> d = session_done (state ctx).
Proof.
  intros Hintent. cbv zeta.
  assert (session_done
            (state (_route_intent ratio py_str self w req intent_data now ctx).2)
          = session_done (state ctx)) as Hdone.
  { rewrite _route_intent_cases. cbv zeta.
    destruct (handlers_keep_done intent_data) as (Hm & Hp & Ha).
    destruct (labelled_labels (intent intent_data) ctx) as (_ & _ & _ & Hd).
    rewrite <- Hd.
    repeat case_decide; rewrite ?finish_route_state;
      first [done | apply Hm | apply Hp | apply Ha]. }
  split; [done|]. intros reply d Hout.
  destruct (_route_intent ratio py_str self w req intent_data now ctx)
    as [r ctx'] eqn:E. simpl in *. subst r.
  apply _route_intent_flag in E. congruence.
Qed.

(** X12. A turn whose intent is none of the four that have a handler
    touches nothing but the labels: it returns, for every world, the
    canned redirect (the fallback one for ["chitchat"] and ["unknown"],
    the safety-net one for any other intent), with the completion flag
    as it was, and the context it leaves is the one it received with
    flow and step set. *)
Theorem other_intents_only_relabel req intent_data now ctx :
  intent intent_data <> "get_menu" ->
  intent intent_data <> "provide_phone" ->
  intent intent_data <> "provide_address" ->
  intent intent_data <> "place_order" ->
  _route_intent ratio py_str self w req intent_data now ctx
  = (Ok (if decide (intent intent_data = "chitchat" \/ intent intent_data = "unknown")
         then reply_fallback else reply_unknown,
         session_done (state ctx)),
     labelled (intent intent_data) ctx).
Proof.
  intros H1 H2 H3 H4. rewrite _route_intent_cases. cbv zeta.
  destruct (labelled_labels (intent intent_data) ctx) as (_ & _ & _ & ->).
  by repeat case_decide.
Qed.

End LabelProps.

(** ** StepDispatcher: the handlers *)

(** Runs a handler's body on the context at hand, bind by bind. *)
Ltac run_m :=
  repeat first
    [ rewrite bind_run
    | progress cbn [M.get M.gets M.scratch_get M.modify M.lift mret M_ret] ].

Section HandlerProps.
Import AgentCore.
Variable ratio : string -> string -> Q.
Variable py_str : pyval -> string.
Variable self : AgentCore.

Lemma _handle_order_asks (w : World) intent_data ctx valid unknown :
  (MenuValidator.validate_items ratio (menu_validator self)
     (items intent_data) ctx).1 = Ok (valid, unknown) ->
  unknown <> [] ->
  exists reply,
    forall w', _handle_order ratio py_str self w' intent_data ctx = (Ok reply, ctx).
Proof.
  intros Hvalid Hne.
  pose proof (validate_items_unfold ratio (menu_validator self)
                (items intent_data) ctx) as Hrun.
  destruct (MenuValidator.validate_items ratio (menu_validator self)
              (items intent_data) ctx) as [r ctx0] eqn:Eval.
  simpl in Hvalid. subst r.
  assert (ctx0 = ctx) as -> by (by inversion Hrun).
  destruct unknown as [|u unknown]; [done|].
  set (menu_items := py_or (dict_get (scratchpad (state ctx)) "menu_items") (VItems [])).
  assert (truthy menu_items = true -> exists shown, py_slice_to 8 menu_items = Ok shown)
    as Hshown.
  { intros Htruthy. cbv zeta in Hrun. fold menu_items in Hrun.
    rewrite Htruthy in Hrun. simpl in Hrun. unfold py_slice_to.
    destruct (py_iter menu_items) as [ms|e]; [by eexists | by inversion Hrun]. }
  destruct (truthy menu_items) eqn:Htruthy.
  - destruct (Hshown eq_refl) as [shown Hs]. eexists. intros w'.
    unfold _handle_order. run_m. rewrite Eval. run_m. fold menu_items.
    rewrite Htruthy. run_m. rewrite Hs. run_m. reflexivity.
  - eexists. intros w'.
    unfold _handle_order. run_m. rewrite Eval. run_m. fold menu_items.
    rewrite Htruthy. run_m. reflexivity.
Qed.

(** X13. A [place_order] turn with a line that matches nothing asks for
    a clarification and submits nothing: for every world the dispatcher
    returns the same reply, with the completion flag as it was, and
    leaves the context as it received it but for the labels (no order id
    nor order items are filed, no webhook outcome matters). *)
Theorem unmatched_order_submits_nothing req intent_data now ctx valid unknown :
  intent intent_data = "place_order" ->
  (MenuValidator.validate_items ratio (menu_validator self)
     (items intent_data) ctx).1 = Ok (valid, unknown) ->
  unknown <> [] ->
  exists reply,
    forall w,
      _route_intent ratio py_str self w req intent_data now ctx
      = (Ok (reply, session_done (state ctx)), labelled "place_order" ctx).
Proof.
  intros Hintent Hvalid Hne.
  destruct (labelled_labels "place_order" ctx) as (_ & _ & Hsc & Hd).
  assert ((MenuValidator.validate_items ratio (menu_validator self)
             (items intent_data) (labelled "place_order" ctx)).1
          = Ok (valid, unknown)) as Hvalid1
    by (rewrite <- Hvalid; by apply validate_items_scratch).
  destruct (_handle_order_asks
              {| clock_handle := 0; clock_load := 0;
                 classify := fun _ _ => Raise ClassifierError;
                 n8n_http := fun _ _ => HttpRaises TransportError;
                 pos_http := Ok tt; analytics_http := Ok tt |}
              intent_data _ valid unknown Hvalid1 Hne) as [reply Hreply].
  exists reply. intros w. rewrite <- Hd. rewrite _route_intent_cases. cbv zeta.
  rewrite Hintent. repeat case_decide; try done.
  by rewrite Hreply.
Qed.

(** X14. A [get_menu] turn whose webhook answers with a non-empty list
    under ["menu"], or under ["items"] when ["menu"] is missing or
    empty, caches the whole list under ["menu_items"] and lists its
    first ten entries between the heading and the closing question; the
    completion flag is untouched. *)
Theorem menu_is_cached_whole (w : World) req intent_data now ctx
    (data : pydict) (l : list MenuItem) :
  intent intent_data = "get_menu" ->
  (forall payload, N8NGateway.get_menu (n8n_gateway self) w payload = Ok data) ->
  (data !! "menu" = Some (VItems l)
   \/ (truthy (dict_get data "menu") = false /\ data !! "items" = Some (VItems l))) ->
  l <> [] ->
  _route_intent ratio py_str self w req intent_data now ctx
  = (Ok (PyStr.join nl (["Here are some options on the menu:"]
                        ++ (menu_line <$> take 10 l)
                        ++ ["What would you like to order?"]),
         session_done (state ctx)),
     SessionContext.set_scratch "menu_items" (VItems l) (labelled "get_menu" ctx)).
Proof.
  intros Hintent Hport Hdata Hne.
  destruct (labelled_labels "get_menu" ctx) as (_ & _ & _ & Hd).
  assert (py_or (py_or (dict_get data "menu") (dict_get data "items")) (VItems [])
          = VItems l) as Hchosen.
  { unfold py_or, dict_get in *. destruct Hdata as [->|[Hfalsy ->]]; simpl.
    - by destruct l.
    - rewrite Hfalsy. by destruct l. }
  rewrite <- Hd. rewrite _route_intent_cases. cbv zeta. rewrite Hintent.
  repeat case_decide; try done.
  unfold _handle_get_menu. run_m. rewrite Hport. run_m. rewrite Hchosen.
  destruct l as [|m l]; [done|]. cbn [negb truthy]. run_m.
  reflexivity.
Qed.

(** X15. A [get_menu] turn whose webhook result has neither a non-empty
    ["menu"] nor a non-empty ["items"] (an error object, an empty list)
    answers that the menu is unavailable and caches nothing: the
    scratchpad, a menu cached on an earlier turn included, and the
    completion flag are as they were. *)
Theorem menu_unavailable_keeps_cache (w : World) req intent_data now ctx
    (data : pydict) :
  intent intent_data = "get_menu" ->
  (forall payload, N8NGateway.get_menu (n8n_gateway self) w payload = Ok data) ->
  truthy (dict_get data "menu") = false ->
  truthy (dict_get data "items") = false ->
  _route_intent ratio py_str self w req intent_data now ctx
  = (Ok (reply_menu_unavailable, session_done (state ctx)), labelled "get_menu" ctx).
Proof.
  intros Hintent Hport Hmenu Hitems.
  destruct (labelled_labels "get_menu" ctx) as (_ & _ & _ & Hd).
  rewrite <- Hd. rewrite _route_intent_cases. cbv zeta. rewrite Hintent.
  repeat case_decide; try done.
  unfold _handle_get_menu. run_m. rewrite Hport. run_m.
  unfold py_or. by rewrite Hmenu, Hitems.
Qed.

(** X16. A [provide_phone] turn with no phone in the intent nor in the
    scratchpad asks again without calling the webhook and changes
    nothing but the labels. With a phone at hand, once the webhook has
    answered, the scratchpad holds under ["phone"] the normalized phone
    of the answer, or the phone at hand when the answer has none,
    whether the answer says verified or not; only the reply differs. *)
Theorem phone_is_cached_either_way (w : World) req intent_data now ctx :
  intent intent_data = "provide_phone" ->
  let found := phone_at_hand intent_data ctx in
  let out := _route_intent ratio py_str self w req intent_data now ctx in
  (truthy found = false ->
   out = (Ok (reply_phone_missing, session_done (state ctx)),
          labelled "provide_phone" ctx))
  /\ (forall data,
        truthy found = true ->
        (forall payload,
            N8NGateway.verify_phone (n8n_gateway self) w payload = Ok data) ->
        let normalized := dict_get_default data "normalized_phone" found in
        out.2 = SessionContext.set_scratch "phone" normalized
                  (labelled "provide_phone" ctx)
        /\ out.1
           = Ok (if truthy (dict_get_default data "verified" (VBool false))
                 then "Got it. I’ve verified your number as " +:+ py_str normalized
                      +:+ ". " +:+ "What is your delivery address?"
                 else "I heard your phone as " +:+ py_str normalized
                      +:+ ", but I couldn’t verify it. "
                      +:+ "Do you still want to use this number, or would you like to provide another one?",
                 session_done (state ctx))).
Proof.
  intros Hintent found out. subst out.
  destruct (labelled_labels "provide_phone" ctx) as (_ & _ & Hsc & Hd).
  rewrite <- Hd. rewrite _route_intent_cases. cbv zeta. rewrite Hintent.
  repeat case_decide; try done.
  assert (py_or (of_opt_str (phone intent_data))
                (dict_get (scratchpad (state (labelled "provide_phone" ctx))) "phone")
          = found) as Hfound by (by rewrite Hsc).
  split.
  - intros Hnone. unfold _handle_phone. run_m. by rewrite Hfound, Hnone.
  - intros data Hsome Hport. cbv zeta.
    unfold _handle_phone. run_m. rewrite Hfound, Hsome. cbn [negb].
    run_m. rewrite Hport. run_m.
    by destruct (truthy (dict_get_default data "verified" (VBool false))).
Qed.

End HandlerProps.

(** ** TurnCoordinator: turns and the store *)

Section TurnExtras.
Import AgentCore.
Variable ratio : string -> string -> Q.
Variable py_str : pyval -> string.
Variable self : AgentCore.

Lemma load_ttl store (k : SessionKey) now : ttl (load_key store k now).2 = ttl store.
Proof.
  destruct k as [[c u] s]. unfold load_key, MemoryStore.load. simpl.
  destruct (_store store !! _) as [ctx|]; [|done].
  by destruct (_ >? _).
Qed.

Lemma handle_ctx_session w req ctx :
  let out := handle_ctx ratio py_str self w req (clock_handle w) ctx in
  key_of out.2 = key_of ctx
  /\ created_at (session out.2) = created_at (session ctx)
  /\ last_seen_at (session out.2) = clock_handle w.
Proof.
  cbv zeta.
  destruct (handle_ctx_spec ratio py_str self w req (clock_handle w) ctx)
    as [(Hsession & _ & _) _].
  unfold key_of. by rewrite Hsession.
Qed.

(** Where a returning call leaves the context. *)
Lemma handle_stores_at_request_key w memory_store req resp :
  (handle ratio py_str self w memory_store req).1 = Ok resp ->
  _store (handle ratio py_str self w memory_store req).2 !! request_key req
  = Some (handle_ctx ratio py_str self w req (clock_handle w)
            (resolved w memory_store req)).2
  /\ ttl (handle ratio py_str self w memory_store req).2 = ttl memory_store.
Proof.
  intros Hok.
  pose proof (load_ttl memory_store (request_key req) (clock_load w)) as Httl.
  unfold load_key, request_key, MemoryStore._key in Httl. simpl in Httl.
  destruct (MemoryStore.load memory_store (req_channel req) (req_user_id req)
              (req_session_id req) (clock_load w)) as [found store1] eqn:Eload.
  destruct found as [ctx|].
  - split.
    + rewrite (handle_writes_through ratio py_str self w memory_store req ctx)
        by (by rewrite Eload).
      unfold resolved. by rewrite Eload.
    + unfold handle, _resolve_session. rewrite Eload.
      by destruct (handle_ctx _ _ _ _ _ _ _) as [[?|?] ?].
  - pose proof (handle_ctx_session w req
                  (SessionContext.new (req_channel req) (req_user_id req)
                     (req_session_id req) (clock_handle w))) as (Hkey & _).
    cbv zeta in Hkey. unfold key_of in Hkey. simpl in Hkey.
    unfold handle, _resolve_session, resolved in *. rewrite Eload in *. simpl in *.
    destruct (handle_ctx _ _ _ _ _ _ _) as [[resp'|e] ctx'] eqn:Erun; [|done].
    simpl in *. unfold request_key. rewrite Hkey.
    split; [apply lookup_insert_eq | done].
Qed.

(** X17. After a call of [handle] that returns, the session can be
    loaded under the request's key at every clock up to one TTL after
    the call: the record loaded is the one the response describes (its
    snapshot and completion flag), its last history entry is the user
    message of the call, and it was last seen at the time of the
    call. *)
Theorem session_is_loadable_after_turn w memory_store req resp (later : datetime) :
  (handle ratio py_str self w memory_store req).1 = Ok resp ->
  later - clock_handle w <= ttl memory_store ->
  let saved := (handle ratio py_str self w memory_store req).2 in
  exists ctx',
    load_key saved (request_key req) later = (Some ctx', saved)
    /\ memory_snapshot resp = MemorySnapshot.from_ctx ctx'
    /\ resp_session_done resp = session_done (state ctx')
    /\ last (history (short_term ctx'))
       = Some {| role := user; text := req_text req; timestamp := clock_handle w |}
    /\ last_seen_at (session ctx') = clock_handle w.
Proof.
  intros Hok Hlater saved. subst saved.
  destruct (handle_stores_at_request_key w memory_store req resp Hok)
    as [Hstored Httl].
  set (ctx := resolved w memory_store req) in *.
  destruct (handle_ctx_session w req ctx) as (_ & _ & Hseen). cbv zeta in Hseen.
  destruct (handle_ctx_spec ratio py_str self w req (clock_handle w) ctx)
    as [_ Hresp].
  rewrite handle_result in Hok. fold ctx in Hok.
  destruct (Hresp resp Hok) as [Hflag Hsnap].
  eexists. split; [|split; [exact Hsnap|split; [exact Hflag|split; [|exact Hseen]]]].
  - apply load_live; [exact Hstored|]. rewrite Hseen, Httl. lia.
  - rewrite handle_ctx_memory. simpl. apply last_snoc.
Qed.

Lemma _handle_order_quiet w pos analytics intent_data ctx :
  _handle_order ratio py_str self (with_notifications pos analytics w) intent_data ctx
  = _handle_order ratio py_str self w intent_data ctx.
Proof.
  unfold _handle_order. run_m.
  destruct (MenuValidator.validate_items _ _ _ _) as [[[valid unknown]|e] ctx0];
    [|done].
  destruct unknown as [|u unknown]; [|reflexivity].
  run_m.
  change (N8NGateway.place_order (n8n_gateway self) (with_notifications pos analytics w))
    with (N8NGateway.place_order (n8n_gateway self) w).
  destruct (N8NGateway.place_order _ _ _) as [data|e]; [|done].
  run_m. by rewrite !send_to_pos_ok.
Qed.

(** X18. What the posts to the POS bridge and to the analytics webhook
    come to, success or failure, changes nothing to a turn: response (or
    exception) and store are the same. *)
Theorem notifications_never_alter_the_turn w (pos analytics : Res unit)
    memory_store req :
  handle ratio py_str self (with_notifications pos analytics w) memory_store req
  = handle ratio py_str self w memory_store req.
Proof.
  assert (forall ctx,
            handle_ctx ratio py_str self (with_notifications pos analytics w) req
              (clock_handle w) ctx
            = handle_ctx ratio py_str self w req (clock_handle w) ctx) as Hctx.
  { intros ctx. rewrite !handle_ctx_unfold. cbv zeta.
    change (classify (with_notifications pos analytics w)) with (classify w).
    destruct (classify w _ _) as [intent_data|e]; [|done].
    assert (_route_intent ratio py_str self (with_notifications pos analytics w)
              req intent_data (clock_handle w)
              (SessionContext.append_user_message (req_text req) (clock_handle w) ctx)
            = _route_intent ratio py_str self w req intent_data (clock_handle w)
                (SessionContext.append_user_message (req_text req) (clock_handle w) ctx))
      as ->; [|done].
    rewrite !_route_intent_cases. cbv zeta.
    repeat case_decide; try reflexivity. by rewrite _handle_order_quiet. }
  unfold handle, _resolve_session.
  change (clock_load (with_notifications pos analytics w)) with (clock_load w).
  change (clock_handle (with_notifications pos analytics w)) with (clock_handle w).
  destruct (MemoryStore.load _ _ _ _ _) as [[ctx|] store1]; by rewrite Hctx.
Qed.

(** X19. A call of [handle] that raises persists nothing for a session
    that was not in the store: the store is what [load] left. For a
    session found in the store, the record is the stored object and the
    turn has already written to it: the store shows it with the user
    message of the failed call appended and the turn counted, and its
    other keys are untouched. *)
Theorem failed_turn_and_the_store w memory_store req e :
  (handle ratio py_str self w memory_store req).1 = Raise e ->
  let loaded := MemoryStore.load memory_store (req_channel req) (req_user_id req)
                  (req_session_id req) (clock_load w) in
  let after := (handle ratio py_str self w memory_store req).2 in
  (loaded.1 = None -> after = loaded.2)
  /\ (forall ctx, loaded.1 = Some ctx ->
        exists ctx',
          _store after !! request_key req = Some ctx'
          /\ history (short_term ctx')
             = history (short_term ctx)
               ++ [{| role := user; text := req_text req;
                      timestamp := clock_handle w |}]
          /\ turn_count (short_term ctx') = turn_count (short_term ctx) + 1
          /\ forall k, k <> request_key req ->
                       _store after !! k = _store memory_store !! k).
Proof.
  intros Hraise loaded after. subst loaded after. split.
  - intros Hnone. unfold handle, _resolve_session in *.
    destruct (MemoryStore.load _ _ _ _ _) as [[ctx|] store1]; [done|]. simpl in *.
    by destruct (handle_ctx _ _ _ _ _ _ _) as [[resp|e'] ctx'].
  - intros ctx Hsome. eexists. split; [by apply handle_writes_through|].
    rewrite handle_ctx_memory. simpl. split; [done|]. split; [done|].
    intros k Hk.
    pose proof (load_some_inv memory_store (request_key req) (clock_load w) ctx)
      as Hlive.
    unfold load_key, request_key, MemoryStore._key in *. simpl in Hlive, Hk.
    unfold handle, _resolve_session in *.
    destruct (MemoryStore.load _ _ _ _ _) as [[ctx0|] store1]; [|done].
    simpl in *. injection Hsome as ->.
    destruct (Hlive eq_refl) as (_ & _ & ->).
    destruct (handle_ctx _ _ _ _ _ _ _) as [[resp|e'] ctx']; [done|].
    simpl. by rewrite lookup_insert_ne.
Qed.

Lemma handle_ctx_state w req ctx :
  let out := handle_ctx ratio py_str self w req (clock_handle w) ctx in
  (forall k, is_Some (scratchpad (state ctx) !! k) ->
             is_Some (scratchpad (state out.2) !! k))
  /\ (forall f, flow (state ctx) = Some f -> flow (state out.2) = Some f).
Proof.
  cbv zeta. rewrite handle_ctx_unfold. cbv zeta.
  set (ctx1 := SessionContext.append_user_message (req_text req) (clock_handle w) ctx).
  destruct (classify w _ _) as [intent_data|e]; [|done].
  destruct (_route_intent_labels ratio py_str self w req intent_data
              (clock_handle w) ctx1) as (Hf & _ & Hk).
  destruct (labelled_labels (intent intent_data) ctx1) as (Hf0 & _ & Hsc & _).
  assert ((forall k, is_Some (scratchpad (state ctx) !! k) ->
             is_Some (scratchpad
                        (state (_route_intent ratio py_str self w req intent_data
                                  (clock_handle w) ctx1).2) !! k))
          /\ (forall f, flow (state ctx) = Some f ->
                flow (state (_route_intent ratio py_str self w req intent_data
                               (clock_handle w) ctx1).2) = Some f)) as [Hkeys Hflow].
  { split.
    - intros k Hsome. apply Hk. by rewrite Hsc.
    - intros f Hflow. rewrite Hf, Hf0. subst ctx1. simpl. by rewrite Hflow. }
  by destruct (_route_intent _ _ _ _ _ _ _ _) as [[[reply d]|e] ctx2].
Qed.

(** X20. Over any sequence of turns on a session record, whatever the
    intents and the webhooks, no scratchpad key is ever lost, a flow
    once set never changes, and the record keeps its key and its
    creation time. *)
Theorem scratchpad_and_flow_survive_turns
    (turns : list (World * OrchestratorRequest)) (ctx : SessionContext) :
  let later := run_turns ratio py_str self turns ctx in
  (forall k, is_Some (scratchpad (state ctx) !! k) ->
             is_Some (scratchpad (state later) !! k))
  /\ (forall f, flow (state ctx) = Some f -> flow (state later) = Some f)
  /\ key_of later = key_of ctx
  /\ created_at (session later) = created_at (session ctx).
Proof.
  induction turns as [|[w req] turns IH] using rev_ind; [done|].
  cbv zeta in *. rewrite run_turns_snoc. simpl.
  destruct IH as (IHk & IHf & IHkey & IHc).
  destruct (handle_ctx_state w req (run_turns ratio py_str self turns ctx))
    as [Hk Hf].
  destruct (handle_ctx_session w req (run_turns ratio py_str self turns ctx))
    as (Hkey & Hc & _).
  cbv zeta in *. repeat split; [auto | auto | congruence | congruence].
Qed.

End TurnExtras.

(** ** Worked instances of the further properties *)

Lemma sorts_every_line_instance :
  exists valid unknown,
    MenuValidator.validate_items Difflib.ratio MenuValidator.init_default
      Case.order_lines (Scenario.with_menu Scenario.menu)
    = (Ok (valid, unknown), Scenario.with_menu Scenario.menu)
    /\ Forall (fun m => m ∈ Scenario.menu) valid
    /\ unknown `sublist_of` (PyStr.strip <$> List.filter non_blank Case.order_lines)
    /\ (length valid + length unknown
        = length (List.filter non_blank Case.order_lines))%nat.
Proof.
  apply (validate_items_sorts_every_line Difflib.ratio MenuValidator.init_default
           Case.order_lines (Scenario.with_menu Scenario.menu) Scenario.menu);
    [reflexivity | discriminate].
Defined.

Lemma validate_items_app_instance :
  exists valid1 unknown1 valid2 unknown2,
    MenuValidator.validate_items Difflib.ratio MenuValidator.init_default
      ["cheese burger"] (Scenario.with_menu Scenario.menu)
    = (Ok (valid1, unknown1), Scenario.with_menu Scenario.menu)
    /\ MenuValidator.validate_items Difflib.ratio MenuValidator.init_default
         ["pizza"; "fries"] (Scenario.with_menu Scenario.menu)
       = (Ok (valid2, unknown2), Scenario.with_menu Scenario.menu)
    /\ MenuValidator.validate_items Difflib.ratio MenuValidator.init_default
         (["cheese burger"] ++ ["pizza"; "fries"]) (Scenario.with_menu Scenario.menu)
       = (Ok (valid1 ++ valid2, unknown1 ++ unknown2),
          Scenario.with_menu Scenario.menu).
Proof.
  apply (validate_items_app Difflib.ratio MenuValidator.init_default
           ["cheese burger"] ["pizza"; "fries"]
           (Scenario.with_menu Scenario.menu) Scenario.menu).
  reflexivity.
Defined.

Lemma blank_lines_instance :
  MenuValidator.validate_items Difflib.ratio MenuValidator.init_default
    Case.order_lines (Scenario.with_menu Scenario.menu)
  = MenuValidator.validate_items Difflib.ratio MenuValidator.init_default
      (List.filter non_blank Case.order_lines) (Scenario.with_menu Scenario.menu).
Proof.
  apply (blank_lines_are_skipped Difflib.ratio MenuValidator.init_default
           Case.order_lines (Scenario.with_menu Scenario.menu) Scenario.menu);
    [reflexivity | discriminate].
Defined.

Lemma nameless_menu_instance :
  MenuValidator.validate_items Difflib.ratio MenuValidator.init_default
    Case.order_lines (Scenario.with_menu Case.nameless_menu)
  = (Ok ([], List.filter PyStr.truthy (PyStr.strip <$> Case.order_lines)),
     Scenario.with_menu Case.nameless_menu).
Proof.
  apply (nameless_menu_matches_nothing Difflib.ratio MenuValidator.init_default
           Case.order_lines (Scenario.with_menu Case.nameless_menu)
           Case.nameless_menu);
    [reflexivity | discriminate | repeat constructor].
Defined.

Lemma case_and_margins_instance :
  exists valid (unmatched : bool),
    MenuValidator.validate_items Difflib.ratio MenuValidator.init_default
      [" FRIES "] (Scenario.with_menu Scenario.menu)
    = (Ok (valid, if unmatched then [PyStr.strip " FRIES "] else []),
       Scenario.with_menu Scenario.menu)
    /\ MenuValidator.validate_items Difflib.ratio MenuValidator.init_default
         ["fries"] (Scenario.with_menu Scenario.menu)
       = (Ok (valid, if unmatched then [PyStr.strip "fries"] else []),
          Scenario.with_menu Scenario.menu).
Proof.
  apply (matching_ignores_case_and_margins Difflib.ratio MenuValidator.init_default
           " FRIES " "fries" (Scenario.with_menu Scenario.menu) Scenario.menu);
    [reflexivity | discriminate | reflexivity].
Defined.

Lemma menu_turn_leaves_done_instance :
  let w := Scenario.world (Scenario.intent_of "get_menu" [])
                          (HttpRaises TransportError) in
  let out := AgentCore._route_intent Difflib.ratio str_of_scalar Scenario.core w
               (Scenario.request "menu") (Scenario.intent_of "get_menu" []) 1000
               Scenario.completed in
  session_done (state out.2) = session_done (state Scenario.completed)
  /\ forall reply d, out.1 = Ok (reply, d) ->
                     d = session_done (state Scenario.completed).
Proof.
  apply (only_an_order_sets_done Difflib.ratio str_of_scalar Scenario.core
           (Scenario.world (Scenario.intent_of "get_menu" [])
                           (HttpRaises TransportError))
           (Scenario.request "menu") (Scenario.intent_of "get_menu" []) 1000
           Scenario.completed).
  discriminate.
Defined.

Lemma chitchat_instance :
  let w := Scenario.world (Scenario.intent_of "chitchat" [])
                          (HttpRaises TransportError) in
  AgentCore._route_intent Difflib.ratio str_of_scalar Scenario.core w
    (Scenario.request "hello") (Scenario.intent_of "chitchat" []) 1000
    (Scenario.with_menu Scenario.menu)
  = (Ok (if decide (intent (Scenario.intent_of "chitchat" []) = "chitchat"
                    \/ intent (Scenario.intent_of "chitchat" []) = "unknown")
         then AgentCore.reply_fallback else AgentCore.reply_unknown,
         session_done (state (Scenario.with_menu Scenario.menu))),
     labelled (intent (Scenario.intent_of "chitchat" []))
              (Scenario.with_menu Scenario.menu)).
Proof.
  apply (other_intents_only_relabel Difflib.ratio str_of_scalar Scenario.core
           (Scenario.world (Scenario.intent_of "chitchat" [])
                           (HttpRaises TransportError))
           (Scenario.request "hello") (Scenario.intent_of "chitchat" []) 1000
           (Scenario.with_menu Scenario.menu));
    discriminate.
Defined.

Lemma unmatched_order_instance :
  exists reply,
    forall w,
      AgentCore._route_intent Difflib.ratio str_of_scalar Scenario.core w
        (Scenario.request "a pizza") (Scenario.intent_of "place_order" ["pizza"])
        1000 (Scenario.with_menu Scenario.menu)
      = (Ok (reply, session_done (state (Scenario.with_menu Scenario.menu))),
         labelled "place_order" (Scenario.with_menu Scenario.menu)).
Proof.
  apply (unmatched_order_submits_nothing Difflib.ratio str_of_scalar Scenario.core
           (Scenario.request "a pizza") (Scenario.intent_of "place_order" ["pizza"])
           1000 (Scenario.with_menu Scenario.menu) [] ["pizza"]);
    [reflexivity | vm_compute; reflexivity | discriminate].
Defined.

Lemma menu_cached_instance :
  let w := Scenario.world (Scenario.intent_of "get_menu" [])
                          (HttpJson Case.menu_answer) in
  AgentCore._route_intent Difflib.ratio str_of_scalar Scenario.core w
    (Scenario.request "menu") (Scenario.intent_of "get_menu" []) 1000 Scenario.fresh
  = (Ok (PyStr.join AgentCore.nl
           (["Here are some options on the menu:"]
            ++ (AgentCore.menu_line <$> take 10 Scenario.menu)
            ++ ["What would you like to order?"]),
         session_done (state Scenario.fresh)),
     SessionContext.set_scratch "menu_items" (VItems Scenario.menu)
       (labelled "get_menu" Scenario.fresh)).
Proof.
  apply (menu_is_cached_whole Difflib.ratio str_of_scalar Scenario.core
           (Scenario.world (Scenario.intent_of "get_menu" [])
                           (HttpJson Case.menu_answer))
           (Scenario.request "menu") (Scenario.intent_of "get_menu" []) 1000
           Scenario.fresh Case.menu_answer Scenario.menu).
  - reflexivity.
  - intros payload. reflexivity.
  - left. reflexivity.
  - discriminate.
Defined.

Lemma menu_url_unset_instance :
  let w := Scenario.world (Scenario.intent_of "get_menu" [])
                          (HttpRaises TransportError) in
  AgentCore._route_intent Difflib.ratio str_of_scalar Case.core_without_menu_url w
    (Scenario.request "menu") (Scenario.intent_of "get_menu" []) 1000
    (Scenario.with_menu Scenario.menu)
  = (Ok (AgentCore.reply_menu_unavailable,
         session_done (state (Scenario.with_menu Scenario.menu))),
     labelled "get_menu" (Scenario.with_menu Scenario.menu)).
Proof.
  apply (menu_unavailable_keeps_cache Difflib.ratio str_of_scalar
           Case.core_without_menu_url
           (Scenario.world (Scenario.intent_of "get_menu" [])
                           (HttpRaises TransportError))
           (Scenario.request "menu") (Scenario.intent_of "get_menu" []) 1000
           (Scenario.with_menu Scenario.menu)
           {[ "error" := VStr "url_not_configured" ]}).
  - reflexivity.
  - intros payload. reflexivity.
  - reflexivity.
  - reflexivity.
Defined.

Lemma phone_cached_instance :
  let w := Scenario.world Case.phone_intent (HttpJson Case.phone_answer) in
  let found := phone_at_hand Case.phone_intent Scenario.fresh in
  let out := AgentCore._route_intent Difflib.ratio str_of_scalar Scenario.core w
               (Scenario.request "my number is 555 0100") Case.phone_intent 1000
               Scenario.fresh in
  truthy found = true
  /\ out.2 = SessionContext.set_scratch "phone" (VStr "+15550100")
               (labelled "provide_phone" Scenario.fresh)
  /\ out.1
     = Ok ("Got it. I’ve verified your number as +15550100. What is your delivery address?",
           false).
Proof.
  cbv zeta. split; [reflexivity|].
  exact (proj2 (phone_is_cached_either_way Difflib.ratio str_of_scalar Scenario.core
                  (Scenario.world Case.phone_intent (HttpJson Case.phone_answer))
                  (Scenario.request "my number is 555 0100") Case.phone_intent 1000
                  Scenario.fresh eq_refl)
           Case.phone_answer eq_refl (fun _ => eq_refl)).
Defined.

Lemma loadable_after_turn_instance :
  let w := Scenario.world (Scenario.intent_of "get_menu" [])
                          (HttpJson Case.menu_answer) in
  let saved := (AgentCore.handle Difflib.ratio str_of_scalar Scenario.core w
                  Scenario.empty_store (Scenario.request "menu")).2 in
  exists resp ctx',
    (AgentCore.handle Difflib.ratio str_of_scalar Scenario.core w
       Scenario.empty_store (Scenario.request "menu")).1 = Ok resp
    /\ load_key saved (request_key (Scenario.request "menu")) 3600000000
       = (Some ctx', saved)
    /\ memory_snapshot resp = MemorySnapshot.from_ctx ctx'
    /\ last_seen_at (session ctx') = 1000.
Proof.
  cbv zeta.
  assert (exists resp,
            (AgentCore.handle Difflib.ratio str_of_scalar Scenario.core
               (Scenario.world (Scenario.intent_of "get_menu" [])
                               (HttpJson Case.menu_answer))
               Scenario.empty_store (Scenario.request "menu")).1 = Ok resp)
    as [resp Hresp] by (vm_compute; eexists; reflexivity).
  destruct (session_is_loadable_after_turn Difflib.ratio str_of_scalar Scenario.core
              (Scenario.world (Scenario.intent_of "get_menu" [])
                              (HttpJson Case.menu_answer))
              Scenario.empty_store (Scenario.request "menu") resp 3600000000 Hresp)
    as (ctx' & Hload & Hsnap & _ & _ & Hseen).
  { vm_compute. discriminate. }
  exists resp, ctx'. by repeat split.
Defined.

Lemma failed_turn_instance :
  let w := Scenario.world (Scenario.intent_of "place_order" ["fries"])
                          (HttpRaises HTTPStatusError) in
  let after := (AgentCore.handle Difflib.ratio str_of_scalar Scenario.core w
                  Scenario.store_with_menu (Scenario.request "fries please")).2 in
  exists ctx',
    _store after !! request_key (Scenario.request "fries please") = Some ctx'
    /\ history (short_term ctx')
       = history (short_term (Scenario.with_menu Scenario.menu))
         ++ [{| role := user; text := "fries please"; timestamp := 1000 |}]
    /\ turn_count (short_term ctx')
       = turn_count (short_term (Scenario.with_menu Scenario.menu)) + 1.
Proof.
  cbv zeta.
  destruct (proj2 (failed_turn_and_the_store Difflib.ratio str_of_scalar Scenario.core
                     (Scenario.world (Scenario.intent_of "place_order" ["fries"])
                                     (HttpRaises HTTPStatusError))
                     Scenario.store_with_menu (Scenario.request "fries please")
                     HTTPStatusError ltac:(vm_compute; reflexivity))
              (Scenario.with_menu Scenario.menu) ltac:(vm_compute; reflexivity))
    as (ctx' & Hstored & Hhist & Hcount & _).
  exists ctx'. by repeat split.
Defined.
